(** * Betweenness centrality: the Python dispatch layer of cugraph

    A shallow embedding of [python/cugraph/centrality/betweenness_centrality.py]:
    the two entry points [betweenness_centrality] and
    [edge_betweenness_centrality], and the four internal functions that
    resolve the implementation name and build the source set.

    The module calls three things it does not define: Python's [random]
    module, the cudf series holding the renumbering map, and the two compiled
    wrappers.  The first and the last are taken as parameters ([PyRandom],
    [Backend]); the series operations used by the lookup are written out. *)

From Stdlib Require Import ZArith List Bool Lia.
From stdpp Require Import base list strings.

Local Open Scope Z_scope.

(** ** Python values *)

(** The exceptions the module raises, itself or through a library call. *)
Inductive exn : Type :=
| ValueError
| NotImplementedError
| TypeError
| IndexError.

(** The error taxonomy of the specification. *)
Inductive error_kind : Type :=
| InvalidArgument
| NotSupported
| TypeMismatch
| NotFound.

Definition kind_of (e : exn) : error_kind :=
  match e with
  | ValueError => InvalidArgument
  | NotImplementedError => NotSupported
  | TypeError => TypeMismatch
  | IndexError => NotFound
  end.

Inductive result (A : Type) : Type :=
| Ok (a : A)
| Raise (e : exn).
Arguments Ok {A} a.
Arguments Raise {A} e.

(** Values a caller may pass as [k] that are neither [None], an [int] nor a
    [list].  The module never looks inside them. *)
Inductive pyother : Type :=
| PyStr (s : string)
| PyFloat (mantissa exponent : Z)
| PyTuple (items : list Z).

(** The parameter [k], by the run-time type tests of [_initialize_vertices]. *)
Inductive kvalue : Type :=
| KNone
| KInt (n : Z)
| KList (identifiers : list Z)
| KOther (o : pyother).

(** [k is not None] *)
Definition is_not_None (k : kvalue) : bool :=
  match k with KNone => false | _ => true end.

(** [weight is not None] *)
Definition weight_given {A : Type} (weight : option A) : bool :=
  match weight with None => false | Some _ => true end.

(** The parameter [result_dtype]. *)
Inductive dtype : Type :=
| float32
| float64
| other_dtype (name : string).

(** [result_dtype not in [np.float32, np.float64]] *)
Definition dtype_not_supported (d : dtype) : bool :=
  match d with float32 | float64 => false | other_dtype _ => true end.

(** ** The graph *)

(** A cudf series: rows of (index label, value), in storage order. *)
Definition Series : Type := list (Z * Z).

(** [s == vert] : the boolean mask of the rows whose value equals [vert]. *)
Definition series_eq (s : Series) (vert : Z) : list bool :=
  map (fun row => Z.eqb (snd row) vert) s.

(** [s[mask]] : the rows selected by the mask, labels kept. *)
Fixpoint series_mask (s : Series) (mask : list bool) : Series :=
  match s, mask with
  | row :: s', b :: mask' =>
      if b then row :: series_mask s' mask' else series_mask s' mask'
  | _, _ => []
  end.

(** [s.index] *)
Definition series_index (s : Series) : list Z := map fst s.

(** [l[0]] : an empty index has no position 0. *)
Definition getitem0 {A : Type} (l : list A) : result A :=
  match l with
  | [] => Raise IndexError
  | x :: _ => Ok x
  end.

(** What the module reads of [G]. *)
Record Graph : Type := mkGraph {
  number_of_vertices : nat;
  renumbered : bool;
  renumber_map : Series      (* G.edgelist.renumber_map *)
}.

(** [range(n)] *)
Definition range (n : nat) : list Z := map Z.of_nat (seq 0 n).

(** ** Libraries *)

(** Python's [random] module, as the module uses it: a hidden generator that
    [random.seed] resets and [random.sample] draws from.  The two laws are
    the library's contract for [sample]: it opens with
    [if not 0 <= k <= n: raise ValueError], and otherwise returns [k] elements
    taken from distinct positions of the population, so that the sample and
    what it left behind make up the population again. *)
Record PyRandom : Type := mkPyRandom {
  gen : Type;
  seed_gen : Z -> gen;
  sample : forall A : Type, list A -> Z -> gen -> result (list A) * gen;
  sample_out_of_range : forall A (population : list A) k g,
    k < 0 \/ Z.of_nat (length population) < k ->
    fst (sample A population k g) = Raise ValueError;
  sample_in_range : forall A (population : list A) k g,
    0 <= k <= Z.of_nat (length population) ->
    exists chosen rest,
      fst (sample A population k g) = Ok chosen /\
      length chosen = Z.to_nat k /\
      chosen ++ rest ≡ₚ population
}.

(** The tables the compiled wrappers return, and the wrappers themselves. *)
Record Backend : Type := mkBackend {
  DataFrame : Type;
  Weights : Type;
  betweenness_centrality_wrapper :
    Graph -> bool -> bool -> option Weights -> kvalue -> option (list Z) ->
    string -> dtype -> result DataFrame;
  edge_betweenness_centrality_wrapper :
    Graph -> bool -> option Weights -> kvalue -> option (list Z) ->
    dtype -> result DataFrame
}.

(** ** The interpreter state *)

(** Work a call performs, in the order it happens: on the source set
    (seeding, sampling, one lookup per translated identifier) and the hand-over
    to a compiled wrapper. *)
Inductive event : Type :=
| Seeded (seed : option Z)
| Sampled (n : nat) (k : Z)
| LookedUp (vert : Z)
| Dispatched.

Section Centrality.

Variable R : PyRandom.
Variable B : Backend.

(** The process state a call can touch: the generator of [random], the
    entropy the system hands out when [random.seed(None)] asks for it, and the
    log of work. *)
Record World : Type := mkWorld {
  rng_state : gen R;
  entropy : nat -> Z;
  entropy_reads : nat;
  work : list event
}.

Definition M (A : Type) : Type := World -> result A * World.

Definition ret {A : Type} (a : A) : M A := fun w => (Ok a, w).

Definition raise {A : Type} (e : exn) : M A := fun w => (Raise e, w).

Definition bind {A C : Type} (m : M A) (f : A -> M C) : M C :=
  fun w =>
    match m w with
    | (Ok a, w') => f a w'
    | (Raise e, w') => (Raise e, w')
    end.

Notation "x <- m ;; f" := (bind m (fun x => f))
  (at level 100, m at next level, right associativity).
Notation "m ;;; f" := (bind m (fun _ => f))
  (at level 100, right associativity).

(** The state with one more entry in the log. *)
Definition record (e : event) (w : World) : World :=
  mkWorld (rng_state w) (entropy w) (entropy_reads w) (work w ++ [e]).

(** The state with the generator replaced. *)
Definition with_rng (g : gen R) (w : World) : World :=
  mkWorld g (entropy w) (entropy_reads w) (work w).

(** The state after [random.seed(seed)]: an explicit seed fixes the generator,
    [None] takes the next value the system hands out. *)
Definition reseed (seed : option Z) (w : World) : World :=
  match seed with
  | Some a => with_rng (seed_gen R a) w
  | None =>
      mkWorld (seed_gen R (entropy w (entropy_reads w)))
              (entropy w) (S (entropy_reads w)) (work w)
  end.

Definition log (e : event) : M unit := fun w => (Ok tt, record e w).

(** [random.seed(seed)] *)
Definition random_seed (seed : option Z) : M unit :=
  log (Seeded seed) ;;;
  fun w => (Ok tt, reseed seed w).

(** [random.sample(population, k)] *)
Definition random_sample (population : list Z) (k : Z) : M (list Z) :=
  log (Sampled (length population) k) ;;;
  fun w =>
    let (r, g) := sample R Z population k (rng_state w) in
    (r, with_rng g w).

(** [[f(x) for x in l]] : left to right, the first exception ends it. *)
Fixpoint list_comprehension {A C : Type} (f : A -> M C) (l : list A) : M (list C) :=
  match l with
  | [] => ret []
  | x :: l' =>
      y <- f x ;;
      ys <- list_comprehension f l' ;;
      ret (y :: ys)
  end.

(** ** The module *)

Definition _initialize_and_verify_implementation
    (implementation : option string) (k : kvalue) : M string :=
  let implementation :=
    match implementation with
    | None => "default"%string
    | Some s => s
    end in
  if negb (existsb (String.eqb implementation) ["default"%string; "gunrock"%string]) then
    raise ValueError
  else if String.eqb implementation "gunrock"%string && is_not_None k then
    raise ValueError
  else ret implementation.

Definition _initialize_vertices_from_indices_sampling
    (G : Graph) (k : Z) (seed : option Z) : M (list Z) :=
  random_seed seed ;;;
  vertices <- random_sample (range (number_of_vertices G)) k ;;
  ret vertices.

(** [G.edgelist.renumber_map[G.edgelist.renumber_map == vert].index[0]] *)
Definition renumber_lookup (G : Graph) (vert : Z) : M Z :=
  log (LookedUp vert) ;;;
  fun w =>
    (getitem0
       (series_index
          (series_mask (renumber_map G) (series_eq (renumber_map G) vert))),
     w).

Definition _initialize_vertices_from_identifiers_list
    (G : Graph) (identifiers : list Z) : M (list Z * Z) :=
  let vertices := identifiers in
  vertices <-
    (if renumbered G then list_comprehension (renumber_lookup G) vertices
     else ret vertices) ;;
  let k := Z.of_nat (length vertices) in
  ret (vertices, k).

Definition _initialize_vertices
    (G : Graph) (k : kvalue) (seed : option Z) : M (option (list Z) * kvalue) :=
  match k with
  | KNone => ret (None, k)
  | KInt n =>
      vertices <- _initialize_vertices_from_indices_sampling G n seed ;;
      ret (Some vertices, k)
  | KList identifiers =>
      vk <- _initialize_vertices_from_identifiers_list G identifiers ;;
      ret (Some (fst vk), KInt (snd vk))
  | KOther _ => ret (None, k)
  end.

(** The call into a compiled wrapper, whose outcome is [r]. *)
Definition call {A : Type} (r : result A) : M A :=
  log Dispatched ;;; fun w => (r, w).

Definition betweenness_centrality
    (G : Graph) (k : kvalue) (normalized : bool) (weight : option (Weights B))
    (endpoints : bool) (implementation : option string) (seed : option Z)
    (result_dtype : dtype) : M (DataFrame B) :=
  implementation <- _initialize_and_verify_implementation implementation k ;;
  vk <- _initialize_vertices G k seed ;;
  let vertices := fst vk in
  let k := snd vk in
  if endpoints then raise NotImplementedError
  else if weight_given weight then raise NotImplementedError
  else if dtype_not_supported result_dtype then raise TypeError
  else
    df <- call (betweenness_centrality_wrapper B G normalized endpoints weight
                  k vertices implementation result_dtype) ;;
    ret df.

Definition edge_betweenness_centrality
    (G : Graph) (k : kvalue) (normalized : bool) (weight : option (Weights B))
    (seed : option Z) (result_dtype : dtype) : M (DataFrame B) :=
  vk <- _initialize_vertices G k seed ;;
  let vertices := fst vk in
  let k := snd vk in
  if weight_given weight then raise NotImplementedError
  else if dtype_not_supported result_dtype then raise TypeError
  else
    df <- call (edge_betweenness_centrality_wrapper B G normalized weight
                  k vertices result_dtype) ;;
    ret df.

End Centrality.

Arguments mkWorld {R} _ _ _ _.
Arguments rng_state {R} _.
Arguments entropy {R} _.
Arguments entropy_reads {R} _.
Arguments work {R} _.
Arguments record {R} _ _.
Arguments with_rng {R} _ _.
Arguments reseed {R} _ _.

(** ** Vocabulary of the statements *)

(** The implementation name once the [None] default is applied. *)
Definition resolved (implementation : option string) : string :=
  match implementation with
  | None => "default"%string
  | Some s => s
  end.

Definition supported_implementation (s : string) : Prop :=
  s = "default"%string \/ s = "gunrock"%string.

(** The kind of error a run ended with, if it ended with one. *)
Definition error_of {A : Type} (r : result A) : option error_kind :=
  match r with
  | Ok _ => None
  | Raise e => Some (kind_of e)
  end.

(** The validation order as the specification words it: implementation name,
    endpoints, weighting, result precision, gunrock with sampling; the first
    check that fails decides the error. *)
Definition spec_validation_order {W : Type}
    (k : kvalue) (weight : option W) (endpoints : bool)
    (implementation : option string) (result_dtype : dtype) : option error_kind :=
  let name := resolved implementation in
  if negb (existsb (String.eqb name) ["default"%string; "gunrock"%string]) then
    Some InvalidArgument
  else if endpoints then Some NotSupported
  else if weight_given weight then Some NotSupported
  else if dtype_not_supported result_dtype then Some TypeMismatch
  else if String.eqb name "gunrock"%string && is_not_None k then Some InvalidArgument
  else None.

(** [ix] is the label of the first row of [s] whose value is [vert]. *)
Definition first_match (s : Series) (vert ix : Z) : Prop :=
  exists pos : nat,
    s !! pos = Some (ix, vert) /\
    forall (pos' : nat) (row : Z * Z),
      (pos' < pos)%nat -> s !! pos' = Some row -> snd row <> vert.

(** The state after the identifiers [done] were looked up, in that order. *)
Definition looked_up {R : PyRandom} (done : list Z) (w : World R) : World R :=
  mkWorld (rng_state w) (entropy w) (entropy_reads w)
          (work w ++ map LookedUp done).

(** [w'] has the generator of [random] and the entropy position of [w]. *)
Definition generator_untouched {R : PyRandom} (w w' : World R) : Prop :=
  rng_state w' = rng_state w /\ entropy_reads w' = entropy_reads w.

(** Whether the log shows a call of a compiled wrapper. *)
Definition dispatched {R : PyRandom} (w : World R) : bool :=
  existsb (fun e => match e with Dispatched => true | _ => false end) (work w).

(** ** A reference instance of the libraries

    A linear congruential generator under CPython's pool-based selection
    (the branch [random.sample] takes for small populations), and a backend
    that returns the arguments it was called with. *)

Definition lcg_next (g : Z) : Z := (1103515245 * g + 12345) mod 2147483648.

(** [_randbelow(n)] *)
Definition lcg_randbelow (n : nat) (g : Z) : nat * Z :=
  let g' := lcg_next g in (Z.to_nat (g' mod Z.of_nat n), g').

(** [for i in range(k): j = randbelow(n-i); result[i] = pool[j];
    pool[j] = pool[n-i-1]], with [n] standing for [n-i]. *)
Fixpoint sample_pool {A : Type} (k n : nat) (pool : list A) (g : Z) : list A * Z :=
  match k with
  | O => ([], g)
  | S k' =>
      let (j, g1) := lcg_randbelow n g in
      match pool !! j, pool !! (n - 1)%nat with
      | Some x, Some y =>
          let (r, g2) := sample_pool k' (n - 1) (<[j := y]> pool) g1 in
          (x :: r, g2)
      | _, _ => ([], g1)
      end
  end.

Definition lcg_sample (A : Type) (population : list A) (k : Z) (g : Z)
    : result (list A) * Z :=
  let n := length population in
  if negb ((0 <=? k)%Z && (k <=? Z.of_nat n)%Z) then (Raise ValueError, g)
  else
    let (r, g') := sample_pool (Z.to_nat k) n population g in
    (Ok r, g').

(** What a compiled wrapper was called with. *)
Inductive wrapper_call : Type :=
| VertexCall (G : Graph) (normalized endpoints : bool) (weight : option (list Z))
    (k : kvalue) (vertices : option (list Z)) (implementation : string)
    (result_dtype : dtype)
| EdgeCall (G : Graph) (normalized : bool) (weight : option (list Z))
    (k : kvalue) (vertices : option (list Z)) (result_dtype : dtype).

Definition recording_backend : Backend :=
  mkBackend wrapper_call (list Z)
    (fun G normalized endpoints weight k vertices implementation result_dtype =>
       Ok (VertexCall G normalized endpoints weight k vertices implementation
             result_dtype))
    (fun G normalized weight k vertices result_dtype =>
       Ok (EdgeCall G normalized weight k vertices result_dtype)).

(** Five vertices with identifiers 10, 20, 30, 40, 50 renumbered to 0..4. *)
Definition G5 : Graph :=
  mkGraph 5 true [(0, 10); (1, 20); (2, 30); (3, 40); (4, 50)].

(** Three vertices, identifiers already dense. *)
Definition G3 : Graph := mkGraph 3 false [].

(** *** The reference generator obeys the contract of [random.sample] *)

Lemma lcg_randbelow_lt (n : nat) (g : Z) :
  (0 < n)%nat -> (fst (lcg_randbelow n g) < n)%nat.
Proof.
  intros Hn. unfold lcg_randbelow. cbn [fst].
  pose proof (Z.mod_pos_bound (lcg_next g) (Z.of_nat n)) as Hb. lia.
Qed.

(** Overwriting the drawn slot with the last live one removes exactly the
    drawn element from the live prefix. *)
Lemma pool_step {A : Type} (pool : list A) (n j : nat) (x y : A) :
  (j < n)%nat ->
  pool !! j = Some x ->
  pool !! (n - 1)%nat = Some y ->
  take n pool ≡ₚ x :: take (n - 1) (<[j := y]> pool).
Proof.
  intros Hj Hx Hy.
  assert (Hn : n = S (n - 1)) by lia.
  rewrite Hn at 1. rewrite (take_S_r _ _ _ Hy).
  destruct (decide (j = (n - 1)%nat)) as [-> | Hne].
  - assert (x = y) by congruence. subst y.
    rewrite list_insert_id by assumption.
    symmetry. apply Permutation_cons_append.
  - assert (Hj' : (j < n - 1)%nat) by lia.
    rewrite take_insert_lt by assumption.
    assert (Hx' : take (n - 1) pool !! j = Some x).
    { rewrite lookup_take_lt; assumption. }
    rewrite <- (take_drop_middle _ _ _ Hx') at 1.
    rewrite insert_take_drop by (eapply lookup_lt_Some; eassumption).
    rewrite <- !app_assoc. cbn.
    rewrite <- Permutation_middle.
    rewrite Permutation_middle.
    rewrite <- (Permutation_cons_append _ y). cbn.
    rewrite <- Permutation_middle. reflexivity.
Qed.

Lemma sample_pool_spec {A : Type} (k : nat) :
  forall (n : nat) (pool : list A) (g : Z),
    (k <= n)%nat -> (n <= length pool)%nat ->
    exists rest,
      length (fst (sample_pool k n pool g)) = k /\
      fst (sample_pool k n pool g) ++ rest ≡ₚ take n pool.
Proof.
  induction k as [| k IH]; intros n pool g Hk Hn.
  - exists (take n pool). split; reflexivity.
  - cbn [sample_pool].
    pose proof (lcg_randbelow_lt n g ltac:(lia)) as Hj.
    destruct (lcg_randbelow n g) as [j g1]. cbn [fst] in Hj.
    destruct (lookup_lt_is_Some_2 pool j ltac:(lia)) as [x Hx].
    destruct (lookup_lt_is_Some_2 pool (n - 1) ltac:(lia)) as [y Hy].
    rewrite Hx, Hy.
    destruct (IH (n - 1)%nat (<[j := y]> pool) g1) as [rest [Hlen Hperm]].
    { lia. }
    { rewrite length_insert. lia. }
    destruct (sample_pool k (n - 1) (<[j := y]> pool) g1) as [r g2].
    cbn [fst] in *. exists rest. split.
    + cbn. now rewrite Hlen.
    + rewrite (pool_step pool n j x y Hj Hx Hy).
      change ((x :: r) ++ rest) with (x :: (r ++ rest)).
      now apply Permutation_skip.
Qed.

Lemma lcg_sample_out_of_range (A : Type) (population : list A) (k g : Z) :
  k < 0 \/ Z.of_nat (length population) < k ->
  fst (lcg_sample A population k g) = Raise ValueError.
Proof.
  intros Hk. unfold lcg_sample.
  destruct (0 <=? k)%Z eqn:E1; destruct (k <=? Z.of_nat (length population))%Z eqn:E2;
    cbn; try reflexivity.
  apply Z.leb_le in E1. apply Z.leb_le in E2. lia.
Qed.

Lemma lcg_sample_in_range (A : Type) (population : list A) (k g : Z) :
  0 <= k <= Z.of_nat (length population) ->
  exists chosen rest,
    fst (lcg_sample A population k g) = Ok chosen /\
    length chosen = Z.to_nat k /\
    chosen ++ rest ≡ₚ population.
Proof.
  intros [H0 Hn]. unfold lcg_sample.
  apply Z.leb_le in H0 as E1. apply Z.leb_le in Hn as E2. rewrite E1, E2. cbn.
  destruct (sample_pool_spec (Z.to_nat k) (length population) population g)
    as [rest [Hlen Hperm]]; [lia | lia |].
  destruct (sample_pool (Z.to_nat k) (length population) population g) as [r g'].
  cbn [fst] in *. exists r, rest. repeat split; [assumption |].
  now rewrite Hperm, firstn_all.
Qed.

Definition lcg_random : PyRandom :=
  mkPyRandom Z (fun a => a mod 2147483648) lcg_sample
             lcg_sample_out_of_range lcg_sample_in_range.

(** A world to start from: generator state 0, the n-th entropy value [7 + n], no work. *)
Definition world0 : World lcg_random :=
  mkWorld (R := lcg_random) 0 (fun n => 7 + Z.of_nat n) 0%nat [].

Example sample_demo :
  fst (_initialize_vertices_from_indices_sampling lcg_random G5 3 (Some 42) world0)
  = Ok [2; 0; 4].
Proof. vm_compute. reflexivity. Qed.

(** ** Properties *)

Section Properties.

Variable R : PyRandom.
Variable B : Backend.

Implicit Types (G : Graph) (k : kvalue) (w : World R) (seed : option Z).

Lemma membership_supported (s : string) :
  existsb (String.eqb s) ["default"%string; "gunrock"%string] = true <->
  supported_implementation s.
Proof.
  unfold supported_implementation. cbn [existsb].
  rewrite orb_false_r, orb_true_iff, !String.eqb_eq. reflexivity.
Qed.

Lemma supported_implementation_dec (s : string) :
  supported_implementation s \/ ~ supported_implementation s.
Proof.
  unfold supported_implementation.
  destruct (String.eqb_spec s "default"); [now left; left |].
  destruct (String.eqb_spec s "gunrock"); [now left; right |].
  right. tauto.
Qed.

Lemma verify_unfold (implementation : option string) k :
  _initialize_and_verify_implementation R implementation k =
  if negb (existsb (String.eqb (resolved implementation))
             ["default"%string; "gunrock"%string]) then
    raise R ValueError
  else if String.eqb (resolved implementation) "gunrock"%string && is_not_None k then
    raise R ValueError
  else ret R (resolved implementation).
Proof. reflexivity. Qed.

Lemma verify_unsupported (implementation : option string) k w :
  ~ supported_implementation (resolved implementation) ->
  _initialize_and_verify_implementation R implementation k w = (Raise ValueError, w).
Proof.
  intros Hs. rewrite verify_unfold.
  destruct (existsb _ _) eqn:E; [| reflexivity].
  apply membership_supported in E. contradiction.
Qed.

Lemma verify_gunrock_sampling k w :
  k <> KNone ->
  _initialize_and_verify_implementation R (Some "gunrock"%string) k w
  = (Raise ValueError, w).
Proof. intros Hk. destruct k; [congruence | reflexivity ..]. Qed.

Lemma verify_accepts (implementation : option string) k w :
  supported_implementation (resolved implementation) ->
  (resolved implementation = "gunrock"%string -> k = KNone) ->
  _initialize_and_verify_implementation R implementation k w
  = (Ok (resolved implementation), w).
Proof.
  intros Hs Hg. rewrite verify_unfold.
  apply membership_supported in Hs as ->. cbn [negb].
  destruct (String.eqb _ "gunrock") eqn:E; [| reflexivity].
  apply String.eqb_eq in E. rewrite (Hg E). reflexivity.
Qed.

(** Resolving the name never touches the state. *)
Lemma verify_pure (implementation : option string) k w :
  snd (_initialize_and_verify_implementation R implementation k w) = w.
Proof.
  rewrite verify_unfold.
  destruct (negb _); [reflexivity |]. destruct (_ && _); reflexivity.
Qed.

(** C6. The implementation selector is restricted to "default" and "gunrock":
    [None] resolves to "default" (the resolution returns "default", and a call
    with [None] is the call with "default"), and any string other than the two
    names makes [betweenness_centrality] raise [ValueError] (InvalidArgument),
    whatever the other arguments, with no work done. *)
Theorem C6_implementation_selector :
  (forall k w,
      _initialize_and_verify_implementation R None k w = (Ok "default"%string, w)) /\
  (forall G k normalized weight endpoints seed result_dtype w,
      betweenness_centrality R B G k normalized weight endpoints None seed
        result_dtype w
      = betweenness_centrality R B G k normalized weight endpoints
          (Some "default"%string) seed result_dtype w) /\
  (forall s k w,
      s <> "default"%string -> s <> "gunrock"%string ->
      _initialize_and_verify_implementation R (Some s) k w = (Raise ValueError, w)) /\
  (forall s G k normalized weight endpoints seed result_dtype w,
      s <> "default"%string -> s <> "gunrock"%string ->
      betweenness_centrality R B G k normalized weight endpoints (Some s) seed
        result_dtype w = (Raise ValueError, w)) /\
  kind_of ValueError = InvalidArgument.
Proof.
  assert (Hbad : forall s k w,
             s <> "default"%string -> s <> "gunrock"%string ->
             _initialize_and_verify_implementation R (Some s) k w
             = (Raise ValueError, w)).
  { intros s k w H1 H2. apply verify_unsupported.
    unfold supported_implementation, resolved. cbn. tauto. }
  split; [| split; [| split; [| split]]].
  - intros k w. reflexivity.
  - intros. reflexivity.
  - exact Hbad.
  - intros s G k normalized weight endpoints seed result_dtype w H1 H2.
    unfold betweenness_centrality, bind.
    rewrite (Hbad s k w H1 H2). reflexivity.
  - reflexivity.
Qed.

(** C2. With implementation "gunrock" and any [k] other than [None] (an
    integer, a list, or anything else), [betweenness_centrality] raises
    [ValueError] (InvalidArgument) and leaves the state as it found it: the
    generator is not reseeded, and the log shows no sampling, no lookup and
    no call of the compiled wrapper. *)
Theorem C2_gunrock_rejects_sampling
    G k normalized weight endpoints seed result_dtype w :
  k <> KNone ->
  betweenness_centrality R B G k normalized weight endpoints
    (Some "gunrock"%string) seed result_dtype w = (Raise ValueError, w)
  /\ kind_of ValueError = InvalidArgument.
Proof.
  intros Hk. split; [| reflexivity].
  unfold betweenness_centrality, bind.
  rewrite (verify_gunrock_sampling k w Hk). reflexivity.
Qed.

(** *** Running the source-set functions *)

Lemma sampling_run G (n : Z) seed w :
  _initialize_vertices_from_indices_sampling R G n seed w =
  (fst (sample R Z (range (number_of_vertices G)) n
          (rng_state (reseed seed (record (Seeded seed) w)))),
   with_rng
     (snd (sample R Z (range (number_of_vertices G)) n
             (rng_state (reseed seed (record (Seeded seed) w)))))
     (record (Sampled (length (range (number_of_vertices G))) n)
        (reseed seed (record (Seeded seed) w)))).
Proof.
  unfold _initialize_vertices_from_indices_sampling, random_seed, random_sample,
    bind, log, ret. cbn.
  destruct (sample R Z _ n _) as [[vs | e] g]; reflexivity.
Qed.

Lemma lookup_expression_found (s : Series) (vert : Z) :
  In vert (map snd s) ->
  exists ix,
    getitem0 (series_index (series_mask s (series_eq s vert))) = Ok ix /\
    first_match s vert ix.
Proof.
  induction s as [| [i x] s IH]; intros Hin; [destruct Hin |].
  cbn [series_eq map series_mask snd].
  destruct (Z.eqb_spec x vert) as [-> | Hne].
  - exists i. split; [reflexivity |].
    exists 0%nat. split; [reflexivity |]. intros pos' row Hlt. lia.
  - destruct Hin as [Hx | Hin]; [cbn in Hx; contradiction |].
    destruct (IH Hin) as [ix [Hget [pos [Hpos Hfirst]]]].
    exists ix. split; [exact Hget |].
    exists (S pos). split; [exact Hpos |].
    intros [| pos'] row Hlt Hrow.
    + cbn in Hrow. injection Hrow as <-. exact Hne.
    + cbn in Hrow. apply (Hfirst pos' row); [lia | exact Hrow].
Qed.

Lemma lookup_expression_missing (s : Series) (vert : Z) :
  ~ In vert (map snd s) ->
  getitem0 (series_index (series_mask s (series_eq s vert))) = Raise IndexError.
Proof.
  induction s as [| [i x] s IH]; intros Hnin; [reflexivity |].
  cbn [series_eq map series_mask snd].
  destruct (Z.eqb_spec x vert) as [-> | Hne].
  - exfalso. apply Hnin. now left.
  - apply IH. intros Hin. apply Hnin. now right.
Qed.

Lemma renumber_lookup_run G (vert : Z) w :
  renumber_lookup R G vert w =
  (getitem0
     (series_index (series_mask (renumber_map G) (series_eq (renumber_map G) vert))),
   record (LookedUp vert) w).
Proof. reflexivity. Qed.

Lemma comprehension_found G (identifiers : list Z) :
  forall w,
    Forall (fun vert => In vert (map snd (renumber_map G))) identifiers ->
    exists vertices w',
      list_comprehension R (renumber_lookup R G) identifiers w = (Ok vertices, w') /\
      Forall2 (first_match (renumber_map G)) identifiers vertices.
Proof.
  induction identifiers as [| vert rest IH]; intros w Hall.
  - exists [], w. split; [reflexivity | constructor].
  - inversion Hall as [| ? ? Hvert Hrest]; subst.
    destruct (lookup_expression_found _ _ Hvert) as [ix [Hget Hfirst]].
    destruct (IH (record (LookedUp vert) w) Hrest) as [vs [w' [Hrun Hvs]]].
    exists (ix :: vs), w'. split; [| now constructor].
    cbn [list_comprehension]. unfold bind at 1.
    rewrite renumber_lookup_run, Hget.
    unfold bind at 1. rewrite Hrun. reflexivity.
Qed.

Lemma comprehension_missing G (identifiers : list Z) :
  forall w,
    (exists vert, In vert identifiers /\ ~ In vert (map snd (renumber_map G))) ->
    exists w',
      list_comprehension R (renumber_lookup R G) identifiers w = (Raise IndexError, w').
Proof.
  induction identifiers as [| vert rest IH]; intros w [bad [Hin Hbad]];
    [destruct Hin |].
  cbn [list_comprehension]. unfold bind at 1. rewrite renumber_lookup_run.
  destruct (in_dec Z.eq_dec vert (map snd (renumber_map G))) as [Hfound | Hmissing].
  - destruct (lookup_expression_found _ _ Hfound) as [ix [-> _]].
    destruct (IH (record (LookedUp vert) w)) as [w' Hrun].
    { destruct Hin as [-> | Hin]; [contradiction | eauto]. }
    exists w'. unfold bind at 1. rewrite Hrun. reflexivity.
  - rewrite (lookup_expression_missing _ _ Hmissing). eauto.
Qed.

(** The comprehension returns one result per element. *)
Lemma comprehension_length G (identifiers : list Z) :
  forall w vertices w',
    list_comprehension R (renumber_lookup R G) identifiers w = (Ok vertices, w') ->
    length vertices = length identifiers.
Proof.
  induction identifiers as [| vert rest IH]; intros w vertices w' Hrun.
  - cbn in Hrun. unfold ret in Hrun. now inversion Hrun.
  - cbn [list_comprehension] in Hrun. unfold bind at 1 in Hrun.
    destruct (renumber_lookup R G vert w) as [[ix | e] w1]; [| discriminate].
    unfold bind at 1 in Hrun.
    destruct (list_comprehension R (renumber_lookup R G) rest w1)
      as [[vs | e] w2] eqn:Hrest; [| discriminate].
    unfold ret in Hrun. inversion Hrun; subst. cbn.
    now rewrite (IH _ _ _ Hrest).
Qed.

Lemma translation_run_renumbered G (identifiers : list Z) w :
  renumbered G = true ->
  _initialize_vertices_from_identifiers_list R G identifiers w =
  match list_comprehension R (renumber_lookup R G) identifiers w with
  | (Ok vertices, w') => (Ok (vertices, Z.of_nat (length vertices)), w')
  | (Raise e, w') => (Raise e, w')
  end.
Proof.
  intros Hr. unfold _initialize_vertices_from_identifiers_list, bind. rewrite Hr.
  destruct (list_comprehension _ _ _ _) as [[vs | e] w']; reflexivity.
Qed.

Lemma translation_run_identity G (identifiers : list Z) w :
  renumbered G = false ->
  _initialize_vertices_from_identifiers_list R G identifiers w =
  (Ok (identifiers, Z.of_nat (length identifiers)), w).
Proof.
  intros Hr. unfold _initialize_vertices_from_identifiers_list, bind. rewrite Hr.
  reflexivity.
Qed.

Lemma initialize_vertices_list G (identifiers : list Z) seed w :
  _initialize_vertices R G (KList identifiers) seed w =
  match _initialize_vertices_from_identifiers_list R G identifiers w with
  | (Ok vk, w') => (Ok (Some (fst vk), KInt (snd vk)), w')
  | (Raise e, w') => (Raise e, w')
  end.
Proof.
  cbn [_initialize_vertices]. unfold bind at 1.
  destruct (_initialize_vertices_from_identifiers_list _ _ _ _) as [[vk | e] w'];
    reflexivity.
Qed.

(** *** The identifier translator *)

(** C3. On a renumbered graph, a list holding an identifier that is no value
    of the renumbering map makes the translation raise [IndexError] (NotFound),
    whatever else the list holds; [_initialize_vertices] passes the exception
    on. *)
Theorem C3_missing_identifier_not_found G (identifiers : list Z) seed w :
  renumbered G = true ->
  (exists vert, In vert identifiers /\ ~ In vert (map snd (renumber_map G))) ->
  exists w',
    _initialize_vertices_from_identifiers_list R G identifiers w
    = (Raise IndexError, w') /\
    _initialize_vertices R G (KList identifiers) seed w = (Raise IndexError, w') /\
    kind_of IndexError = NotFound.
Proof.
  intros Hr Hbad.
  destruct (comprehension_missing G identifiers w Hbad) as [w' Hrun].
  assert (Htr : _initialize_vertices_from_identifiers_list R G identifiers w
                = (Raise IndexError, w')).
  { rewrite (translation_run_renumbered _ _ _ Hr), Hrun. reflexivity. }
  exists w'. split; [exact Htr |]. split; [| reflexivity].
  rewrite initialize_vertices_list, Htr. reflexivity.
Qed.

(** C4. When every identifier of the list is a value of the renumbering map
    (nothing is asked of a graph that is not renumbered), the translation
    succeeds; it returns one internal index per identifier, in the order of
    the list, each the label of the first row holding that identifier; the
    [k] it returns, and that [_initialize_vertices] hands on, is the length of
    the list; and on a graph that is not renumbered the list comes back
    unchanged, with no work done. *)
Theorem C4_translation_preserves_list G (identifiers : list Z) seed w :
  (renumbered G = true ->
   Forall (fun vert => In vert (map snd (renumber_map G))) identifiers) ->
  exists vertices w',
    _initialize_vertices_from_identifiers_list R G identifiers w
    = (Ok (vertices, Z.of_nat (length identifiers)), w') /\
    length vertices = length identifiers /\
    (renumbered G = true ->
     Forall2 (first_match (renumber_map G)) identifiers vertices) /\
    (renumbered G = false -> vertices = identifiers /\ w' = w) /\
    _initialize_vertices R G (KList identifiers) seed w
    = (Ok (Some vertices, KInt (Z.of_nat (length identifiers))), w').
Proof.
  intros Hall. destruct (renumbered G) eqn:Hr.
  - destruct (comprehension_found G identifiers w (Hall eq_refl))
      as [vertices [w' [Hrun Hmatch]]].
    pose proof (comprehension_length G identifiers w vertices w' Hrun) as Hlen.
    assert (Htr : _initialize_vertices_from_identifiers_list R G identifiers w
                  = (Ok (vertices, Z.of_nat (length identifiers)), w')).
    { rewrite (translation_run_renumbered _ _ _ Hr), Hrun, Hlen. reflexivity. }
    exists vertices, w'. split; [exact Htr |]. split; [exact Hlen |].
    split; [intros _; exact Hmatch |]. split; [discriminate |].
    rewrite initialize_vertices_list, Htr. reflexivity.
  - exists identifiers, w.
    pose proof (translation_run_identity G identifiers w Hr) as Htr.
    split; [exact Htr |]. split; [reflexivity |].
    split; [discriminate |]. split; [intros _; split; reflexivity |].
    rewrite initialize_vertices_list, Htr. reflexivity.
Qed.

(** *** The vertex sampler *)

Lemma range_length (n : nat) : length (range n) = n.
Proof. unfold range. now rewrite length_map, length_seq. Qed.

Lemma range_NoDup (n : nat) : List.NoDup (range n).
Proof.
  unfold range. apply Finite.Injective_map_NoDup.
  - intros a b. apply Nat2Z.inj.
  - apply seq_NoDup.
Qed.

Lemma range_bounds (n : nat) (v : Z) : In v (range n) -> 0 <= v < Z.of_nat n.
Proof.
  unfold range. rewrite in_map_iff. intros [i [<- Hi]].
  apply in_seq in Hi. lia.
Qed.

(** C5. For a graph with N vertices and an integer [k]: when 0 <= k <= N the
    sampler returns [k] positional indices, pairwise distinct, all in [0, N);
    when [k] is negative or exceeds N it raises [ValueError]
    (InvalidArgument); and with an explicit seed the outcome is the same from
    any two states of the process. *)
Theorem C5_sampler_contract G (k : Z) seed w :
  let N := Z.of_nat (number_of_vertices G) in
  (0 <= k <= N ->
   exists vertices,
     fst (_initialize_vertices_from_indices_sampling R G k seed w) = Ok vertices /\
     Z.of_nat (length vertices) = k /\
     List.NoDup vertices /\
     Forall (fun v => 0 <= v < N) vertices) /\
  (k < 0 \/ N < k ->
   fst (_initialize_vertices_from_indices_sampling R G k seed w) = Raise ValueError /\
   kind_of ValueError = InvalidArgument) /\
  (forall (a : Z) (w1 w2 : World R),
     fst (_initialize_vertices_from_indices_sampling R G k (Some a) w1)
     = fst (_initialize_vertices_from_indices_sampling R G k (Some a) w2)).
Proof.
  intros N. split; [| split].
  - intros Hk. rewrite sampling_run. cbn [fst].
    destruct (sample_in_range R Z (range (number_of_vertices G)) k
                (rng_state (reseed seed (record (Seeded seed) w))))
      as [chosen [rest [Hrun [Hlen Hperm]]]].
    { rewrite range_length. exact Hk. }
    exists chosen. split; [exact Hrun |].
    split; [rewrite Hlen; apply Z2Nat.id; apply Hk |].
    assert (Hnd : List.NoDup (chosen ++ rest)).
    { apply (Permutation_NoDup (l := range (number_of_vertices G)));
        [symmetry; exact Hperm | apply range_NoDup]. }
    split; [exact (NoDup_app_remove_r _ _ Hnd) |].
    apply List.Forall_forall. intros v Hv. apply range_bounds.
    apply (Permutation_in (l := chosen ++ rest)); [exact Hperm |].
    apply in_or_app. now left.
  - intros Hk. split; [| reflexivity].
    rewrite sampling_run. cbn [fst].
    apply sample_out_of_range. rewrite range_length. exact Hk.
  - intros a w1 w2. rewrite !sampling_run. reflexivity.
Qed.

(** *** The log under the source-set functions *)

Lemma dispatched_record (e : event) w :
  e <> Dispatched -> dispatched (record e w) = dispatched w.
Proof.
  intros He. unfold dispatched, record. cbn [work].
  rewrite existsb_app. cbn [existsb].
  destruct e; try congruence; now rewrite !orb_false_r.
Qed.

Lemma dispatched_reseed seed w : dispatched (reseed seed w) = dispatched w.
Proof. destruct seed; reflexivity. Qed.

Lemma comprehension_no_dispatch G (identifiers : list Z) :
  forall w,
    dispatched (snd (list_comprehension R (renumber_lookup R G) identifiers w))
    = dispatched w.
Proof.
  induction identifiers as [| vert rest IH]; intros w; [reflexivity |].
  cbn [list_comprehension]. unfold bind at 1. rewrite renumber_lookup_run.
  destruct (getitem0 _) as [ix | e]; cbn [snd].
  - unfold bind at 1. specialize (IH (record (LookedUp vert) w)).
    destruct (list_comprehension R (renumber_lookup R G) rest _) as [[vs | e] w'];
      unfold ret; cbn [snd] in *; rewrite IH; now apply dispatched_record.
  - now apply dispatched_record.
Qed.

(** Building the source set never reaches a compiled wrapper. *)
Lemma initialize_vertices_no_dispatch G k seed w :
  dispatched (snd (_initialize_vertices R G k seed w)) = dispatched w.
Proof.
  destruct k as [| n | identifiers | o]; try reflexivity.
  - cbn [_initialize_vertices]. unfold bind at 1. rewrite sampling_run.
    destruct (sample R Z _ n _) as [[vs | e] g]; cbn [fst snd];
      (etransitivity; [apply (dispatched_record (Sampled _ n)); discriminate |]);
      (etransitivity; [apply dispatched_reseed |]);
      apply dispatched_record; discriminate.
  - rewrite initialize_vertices_list.
    unfold _initialize_vertices_from_identifiers_list, bind.
    destruct (renumbered G).
    + pose proof (comprehension_no_dispatch G identifiers w) as H.
      destruct (list_comprehension R (renumber_lookup R G) identifiers w)
        as [[vs | e] w']; exact H.
    + reflexivity.
Qed.

(** *** The entry points, step by step *)

Lemma betweenness_centrality_run
    G k normalized (weight : option (Weights B)) (endpoints : bool)
    (implementation : option string) seed (result_dtype : dtype) w :
  betweenness_centrality R B G k normalized weight endpoints implementation seed
    result_dtype w =
  match _initialize_and_verify_implementation R implementation k w with
  | (Raise e, w1) => (Raise e, w1)
  | (Ok name, w1) =>
      match _initialize_vertices R G k seed w1 with
      | (Raise e, w2) => (Raise e, w2)
      | (Ok vk, w2) =>
          if endpoints then (Raise NotImplementedError, w2)
          else if weight_given weight then (Raise NotImplementedError, w2)
          else if dtype_not_supported result_dtype then (Raise TypeError, w2)
          else
            (betweenness_centrality_wrapper B G normalized endpoints weight
               (snd vk) (fst vk) name result_dtype,
             record Dispatched w2)
      end
  end.
Proof.
  unfold betweenness_centrality. unfold bind at 1.
  destruct (_initialize_and_verify_implementation R implementation k w)
    as [[name | e] w1]; [| reflexivity].
  unfold bind at 1.
  destruct (_initialize_vertices R G k seed w1) as [[vk | e] w2]; [| reflexivity].
  destruct endpoints; [reflexivity |].
  destruct (weight_given weight); [reflexivity |].
  destruct (dtype_not_supported result_dtype); [reflexivity |].
  unfold bind, call, log, ret.
  destruct (betweenness_centrality_wrapper B _ _ _ _ _ _ _ _); reflexivity.
Qed.

Lemma edge_betweenness_centrality_run
    G k normalized (weight : option (Weights B)) seed (result_dtype : dtype) w :
  edge_betweenness_centrality R B G k normalized weight seed result_dtype w =
  match _initialize_vertices R G k seed w with
  | (Raise e, w2) => (Raise e, w2)
  | (Ok vk, w2) =>
      if weight_given weight then (Raise NotImplementedError, w2)
      else if dtype_not_supported result_dtype then (Raise TypeError, w2)
      else
        (edge_betweenness_centrality_wrapper B G normalized weight
           (snd vk) (fst vk) result_dtype,
         record Dispatched w2)
  end.
Proof.
  unfold edge_betweenness_centrality. unfold bind at 1.
  destruct (_initialize_vertices R G k seed w) as [[vk | e] w2]; [| reflexivity].
  destruct (weight_given weight); [reflexivity |].
  destruct (dtype_not_supported result_dtype); [reflexivity |].
  unfold bind, call, log, ret.
  destruct (edge_betweenness_centrality_wrapper B _ _ _ _ _ _); reflexivity.
Qed.

(** *** The dispatcher *)

(** C1 (as amended). [betweenness_centrality] validates in this order:
    (1) the implementation name is resolved and an unknown name rejected;
    (2) "gunrock" with a [k] other than [None] is rejected; both with the
    state untouched, so before any sampling or translation.  Then the source
    set is built, and an exception of the sampler or the translator ends the
    call.  Only then (3) endpoints, (4) weighting and (5) an unsupported
    result precision are rejected, in the state the source-set work left.
    Every rejection comes before the compiled wrapper is called: a run whose
    log gains a dispatch passed all five checks. *)
Theorem C1_validation_order
    G k normalized (weight : option (Weights B)) (endpoints : bool)
    (implementation : option string) seed (result_dtype : dtype) w :
  let run :=
    betweenness_centrality R B G k normalized weight endpoints implementation
      seed result_dtype w in
  let name := resolved implementation in
  let init := _initialize_vertices R G k seed w in
  (~ supported_implementation name -> run = (Raise ValueError, w)) /\
  (name = "gunrock"%string -> k <> KNone -> run = (Raise ValueError, w)) /\
  (supported_implementation name -> (name = "gunrock"%string -> k = KNone) ->
   (forall e, fst init = Raise e -> run = (Raise e, snd init)) /\
   (forall vk, fst init = Ok vk ->
      (endpoints = true -> run = (Raise NotImplementedError, snd init)) /\
      (endpoints = false -> weight_given weight = true ->
       run = (Raise NotImplementedError, snd init)) /\
      (endpoints = false -> weight_given weight = false ->
       dtype_not_supported result_dtype = true ->
       run = (Raise TypeError, snd init)) /\
      (endpoints = false -> weight_given weight = false ->
       dtype_not_supported result_dtype = false ->
       run = (betweenness_centrality_wrapper B G normalized endpoints weight
                (snd vk) (fst vk) name result_dtype,
              record Dispatched (snd init))))) /\
  (dispatched w = false -> dispatched (snd run) = true ->
   supported_implementation name /\
   (name = "gunrock"%string -> k = KNone) /\
   endpoints = false /\ weight_given weight = false /\
   dtype_not_supported result_dtype = false).
Proof.
  intros run name init. subst run name init.
  split; [| split; [| split]].
  - intros Hs. rewrite betweenness_centrality_run.
    now rewrite (verify_unsupported implementation k w Hs).
  - intros Hg Hk. rewrite betweenness_centrality_run, verify_unfold, Hg.
    destruct k; [congruence | reflexivity ..].
  - intros Hs Hg. rewrite betweenness_centrality_run.
    rewrite (verify_accepts implementation k w Hs Hg).
    destruct (_initialize_vertices R G k seed w) as [[vk | e] w2]; cbn [fst snd].
    + split; [discriminate |]. intros vk' Hvk. injection Hvk as <-.
      repeat split; intros; subst;
        repeat match goal with H : _ = _ |- _ => rewrite H end; reflexivity.
    + split; [intros e' He; now injection He as <- | discriminate].
  - intros Hw Hrun. rewrite betweenness_centrality_run in Hrun.
    destruct (supported_implementation_dec (resolved implementation)) as [Hs | Hs];
      [| rewrite (verify_unsupported implementation k w Hs) in Hrun;
         cbn [snd] in Hrun; congruence].
    assert (Hg : resolved implementation = "gunrock"%string -> k = KNone).
    { intros Hg. destruct k; [reflexivity | exfalso ..];
        rewrite verify_unfold, Hg in Hrun; cbn in Hrun; congruence. }
    rewrite (verify_accepts implementation k w Hs Hg) in Hrun.
    pose proof (initialize_vertices_no_dispatch G k seed w) as Hinit.
    destruct (_initialize_vertices R G k seed w) as [[vk | e] w2];
      cbn [snd] in *; [| congruence].
    destruct endpoints; [cbn [snd] in Hrun; congruence |].
    destruct (weight_given weight); [cbn [snd] in Hrun; congruence |].
    destruct (dtype_not_supported result_dtype); [cbn [snd] in Hrun; congruence |].
    repeat split; assumption.
Qed.

(** A run that fails one of the three feature checks fails for good: it ends
    in an exception and the compiled wrapper is not called. *)
Lemma betweenness_centrality_rejects
    G k normalized (weight : option (Weights B)) (endpoints : bool)
    (implementation : option string) seed (result_dtype : dtype) w :
  endpoints = true \/ weight_given weight = true \/
  dtype_not_supported result_dtype = true ->
  exists e w',
    betweenness_centrality R B G k normalized weight endpoints implementation
      seed result_dtype w = (Raise e, w') /\
    dispatched w' = dispatched w.
Proof.
  intros Hbad. rewrite betweenness_centrality_run.
  pose proof (verify_pure implementation k w) as Hpure.
  destruct (_initialize_and_verify_implementation R implementation k w)
    as [[name | e] w1]; cbn [snd] in Hpure; subst w1; [| eauto].
  pose proof (initialize_vertices_no_dispatch G k seed w) as Hinit.
  destruct (_initialize_vertices R G k seed w) as [[vk | e] w2];
    cbn [snd] in Hinit; [| eauto].
  destruct endpoints; [eauto |].
  destruct (weight_given weight); [eauto |].
  destruct (dtype_not_supported result_dtype); [eauto |].
  destruct Hbad as [H | [H | H]]; discriminate.
Qed.

Lemma edge_betweenness_centrality_rejects
    G k normalized (weight : option (Weights B)) seed (result_dtype : dtype) w :
  weight_given weight = true \/ dtype_not_supported result_dtype = true ->
  exists e w',
    edge_betweenness_centrality R B G k normalized weight seed result_dtype w
    = (Raise e, w') /\
    dispatched w' = dispatched w.
Proof.
  intros Hbad. rewrite edge_betweenness_centrality_run.
  pose proof (initialize_vertices_no_dispatch G k seed w) as Hinit.
  destruct (_initialize_vertices R G k seed w) as [[vk | e] w2];
    cbn [snd] in Hinit; [| eauto].
  destruct (weight_given weight); [eauto |].
  destruct (dtype_not_supported result_dtype); [eauto |].
  destruct Hbad as [H | H]; discriminate.
Qed.

(** C7 (as amended). A call of either entry point with a weight other than
    [None], and a call of [betweenness_centrality] with endpoints [True],
    always ends in an exception and never reaches the compiled wrapper.  The
    exception is [NotImplementedError] (NotSupported) whenever the steps that
    run first succeed: the resolution of the implementation name (vertex
    variant only) and the construction of the source set. *)
Theorem C7_weight_endpoints_not_supported
    G k normalized (weight : option (Weights B)) (endpoints : bool)
    (implementation : option string) seed (result_dtype : dtype) w :
  (weight_given weight = true \/ endpoints = true ->
   (exists e w',
      betweenness_centrality R B G k normalized weight endpoints implementation
        seed result_dtype w = (Raise e, w') /\
      dispatched w' = dispatched w) /\
   (forall name vk w',
      _initialize_and_verify_implementation R implementation k w = (Ok name, w) ->
      _initialize_vertices R G k seed w = (Ok vk, w') ->
      betweenness_centrality R B G k normalized weight endpoints implementation
        seed result_dtype w = (Raise NotImplementedError, w'))) /\
  (weight_given weight = true ->
   (exists e w',
      edge_betweenness_centrality R B G k normalized weight seed result_dtype w
      = (Raise e, w') /\
      dispatched w' = dispatched w) /\
   (forall vk w',
      _initialize_vertices R G k seed w = (Ok vk, w') ->
      edge_betweenness_centrality R B G k normalized weight seed result_dtype w
      = (Raise NotImplementedError, w'))) /\
  kind_of NotImplementedError = NotSupported.
Proof.
  split; [| split; [| reflexivity]].
  - intros Hbad. split.
    + apply betweenness_centrality_rejects. tauto.
    + intros name vk w' Hverify Hinit.
      rewrite betweenness_centrality_run, Hverify, Hinit.
      destruct endpoints; [reflexivity |].
      destruct Hbad as [-> | H]; [reflexivity | discriminate].
  - intros Hweight. split.
    + apply edge_betweenness_centrality_rejects. tauto.
    + intros vk w' Hinit.
      rewrite edge_betweenness_centrality_run, Hinit, Hweight. reflexivity.
Qed.

(** C8 (as amended). A call of either entry point with a result precision
    that is neither [np.float32] nor [np.float64] always ends in an exception
    and never reaches the compiled wrapper.  The exception is [TypeError]
    (TypeMismatch) whenever the steps that run first succeed and the checks
    that run first pass: the resolution of the implementation name and the
    endpoints check (vertex variant only), the construction of the source
    set, and the weight check. *)
Theorem C8_result_dtype_type_mismatch
    G k normalized (weight : option (Weights B)) (endpoints : bool)
    (implementation : option string) seed (result_dtype : dtype) w :
  dtype_not_supported result_dtype = true ->
  ((exists e w',
      betweenness_centrality R B G k normalized weight endpoints implementation
        seed result_dtype w = (Raise e, w') /\
      dispatched w' = dispatched w) /\
   (forall name vk w',
      _initialize_and_verify_implementation R implementation k w = (Ok name, w) ->
      _initialize_vertices R G k seed w = (Ok vk, w') ->
      endpoints = false -> weight_given weight = false ->
      betweenness_centrality R B G k normalized weight endpoints implementation
        seed result_dtype w = (Raise TypeError, w'))) /\
  ((exists e w',
      edge_betweenness_centrality R B G k normalized weight seed result_dtype w
      = (Raise e, w') /\
      dispatched w' = dispatched w) /\
   (forall vk w',
      _initialize_vertices R G k seed w = (Ok vk, w') ->
      weight_given weight = false ->
      edge_betweenness_centrality R B G k normalized weight seed result_dtype w
      = (Raise TypeError, w'))) /\
  kind_of TypeError = TypeMismatch.
Proof.
  intros Hdtype. split; [| split; [| reflexivity]]; split.
  - apply betweenness_centrality_rejects. tauto.
  - intros name vk w' Hverify Hinit -> Hweight.
    rewrite betweenness_centrality_run, Hverify, Hinit, Hweight, Hdtype.
    reflexivity.
  - apply edge_betweenness_centrality_rejects. tauto.
  - intros vk w' Hinit Hweight.
    rewrite edge_betweenness_centrality_run, Hinit, Hweight, Hdtype. reflexivity.
Qed.

(** *** The seed *)

(** C9. When [k] is [None] or a list, the seed has no effect: two runs that
    differ only in the seed build the same source set, leave the same state
    and give the same result, at both entry points. *)
Theorem C9_seed_ignored_without_sampling
    G k normalized (weight : option (Weights B)) (endpoints : bool)
    (implementation : option string) (result_dtype : dtype) seed1 seed2 w :
  k = KNone \/ (exists identifiers, k = KList identifiers) ->
  _initialize_vertices R G k seed1 w = _initialize_vertices R G k seed2 w /\
  betweenness_centrality R B G k normalized weight endpoints implementation
    seed1 result_dtype w
  = betweenness_centrality R B G k normalized weight endpoints implementation
      seed2 result_dtype w /\
  edge_betweenness_centrality R B G k normalized weight seed1 result_dtype w
  = edge_betweenness_centrality R B G k normalized weight seed2 result_dtype w.
Proof.
  intros Hk.
  assert (Hinit : forall w0,
             _initialize_vertices R G k seed1 w0 = _initialize_vertices R G k seed2 w0).
  { intros w0. destruct Hk as [-> | [identifiers ->]]; reflexivity. }
  split; [apply Hinit |]. split.
  - rewrite !betweenness_centrality_run.
    destruct (_initialize_and_verify_implementation R implementation k w)
      as [[name | e] w1]; [| reflexivity].
    now rewrite Hinit.
  - rewrite !edge_betweenness_centrality_run. now rewrite Hinit.
Qed.

(** *** Values of [k] the module does not recognise *)

(** C10. For a [k] that is neither [None], an integer nor a list, building
    the source set raises nothing and does nothing: it returns no vertices
    and the same [k].  The resolution of the implementation name treats such
    a [k] as it treats every [k] other than [None]; no check looks at what
    kind of value it is.  The entry points hand that [k], with no vertices,
    to the compiled wrapper: [edge_betweenness_centrality] whenever its own
    checks pass, [betweenness_centrality] whenever its own checks pass and
    the implementation is the default one. *)
Theorem C10_unrecognised_k_passes_through
    G (o : pyother) normalized (implementation : option string) seed
    (result_dtype : dtype) w :
  _initialize_vertices R G (KOther o) seed w = (Ok (None, KOther o), w) /\
  (forall k', k' <> KNone ->
     _initialize_and_verify_implementation R implementation (KOther o) w
     = _initialize_and_verify_implementation R implementation k' w) /\
  (resolved implementation = "default"%string ->
   dtype_not_supported result_dtype = false ->
   betweenness_centrality R B G (KOther o) normalized None false implementation
     seed result_dtype w
   = (betweenness_centrality_wrapper B G normalized false None (KOther o) None
        "default"%string result_dtype,
      record Dispatched w)) /\
  (dtype_not_supported result_dtype = false ->
   edge_betweenness_centrality R B G (KOther o) normalized None seed
     result_dtype w
   = (edge_betweenness_centrality_wrapper B G normalized None (KOther o) None
        result_dtype,
      record Dispatched w)).
Proof.
  split; [reflexivity |]. split; [| split].
  - intros k' Hk'. rewrite !verify_unfold. destruct k'; [congruence | reflexivity ..].
  - intros Hname Hdtype. rewrite betweenness_centrality_run.
    rewrite (verify_accepts implementation (KOther o) w).
    + cbn. rewrite Hdtype, Hname. reflexivity.
    + left. exact Hname.
    + rewrite Hname. discriminate.
  - intros Hdtype. rewrite edge_betweenness_centrality_run. cbn.
    rewrite Hdtype. reflexivity.
Qed.

End Properties.

(** ** Runs on the reference instance *)

Example translation_demo :
  fst (_initialize_vertices_from_identifiers_list lcg_random G5 [30; 10; 10] world0)
  = Ok ([2; 0; 0], 3).
Proof. vm_compute. reflexivity. Qed.

Example translation_missing_demo :
  fst (_initialize_vertices_from_identifiers_list lcg_random G5 [10; 99; 30] world0)
  = Raise IndexError.
Proof. vm_compute. reflexivity. Qed.

Example dispatch_demo :
  fst (betweenness_centrality lcg_random recording_backend G5 (KList [50; 20]) true
         None false None None float32 world0)
  = Ok (VertexCall G5 true false None (KInt 2) (Some [4; 1]) "default" float32).
Proof. vm_compute. reflexivity. Qed.

(** The specification's order puts the endpoints check before the check of
    "gunrock" with sampling, and every check before the source set is built.
    The module has it otherwise: with "gunrock", [k = 2] and endpoints
    requested the error is InvalidArgument, not NotSupported; and with the
    default implementation, [k = 2] and endpoints requested, the generator has
    been reseeded and a sample drawn by the time the call is rejected. *)
Lemma C1_counterexample :
  spec_validation_order (KInt 2) (@None (list Z)) true (Some "gunrock"%string)
    float64 = Some NotSupported /\
  error_of (fst (betweenness_centrality lcg_random recording_backend G5 (KInt 2)
                   true None true (Some "gunrock"%string) (Some 1) float64 world0))
  = Some InvalidArgument /\
  spec_validation_order (KInt 2) (@None (list Z)) true None float64
  = Some NotSupported /\
  error_of (fst (betweenness_centrality lcg_random recording_backend G5 (KInt 2)
                   true None true None (Some 1) float64 world0))
  = Some NotSupported /\
  work (snd (betweenness_centrality lcg_random recording_backend G5 (KInt 2)
               true None true None (Some 1) float64 world0))
  = [Seeded (Some 1); Sampled 5 2].
Proof. vm_compute. repeat split. Qed.

(** A weight is given, yet the error is InvalidArgument: the sampler is asked
    for 5 of 3 vertices before the weight is looked at.  Both entry points. *)
Lemma C7_counterexample :
  weight_given (Some [1]) = true /\
  error_of (fst (betweenness_centrality lcg_random recording_backend G3 (KInt 5)
                   true (Some [1]) false None (Some 1) float64 world0))
  = Some InvalidArgument /\
  error_of (fst (edge_betweenness_centrality lcg_random recording_backend G3
                   (KInt 5) true (Some [1]) (Some 1) float64 world0))
  = Some InvalidArgument.
Proof. vm_compute. repeat split. Qed.

(** The result precision is unsupported, yet the error is NotSupported: the
    weight check comes first.  Both entry points. *)
Lemma C8_counterexample :
  dtype_not_supported (other_dtype "int32") = true /\
  error_of (fst (betweenness_centrality lcg_random recording_backend G3 KNone
                   true (Some [1]) false None None (other_dtype "int32") world0))
  = Some NotSupported /\
  error_of (fst (edge_betweenness_centrality lcg_random recording_backend G3
                   KNone true (Some [1]) None (other_dtype "int32") world0))
  = Some NotSupported.
Proof. vm_compute. repeat split. Qed.

(** ** The theorems at concrete inputs *)

Lemma C1_witness :
  betweenness_centrality lcg_random recording_backend G5 (KInt 2) true None true
    (Some "gunrock"%string) (Some 1) float64 world0
  = (Raise ValueError, world0).
Proof.
  apply (proj1 (proj2 (C1_validation_order lcg_random recording_backend G5
                         (KInt 2) true None true (Some "gunrock"%string)
                         (Some 1) float64 world0))).
  - reflexivity.
  - discriminate.
Defined.

Lemma C2_witness :
  betweenness_centrality lcg_random recording_backend G5 (KList [10; 20]) true
    None false (Some "gunrock"%string) None float32 world0
  = (Raise ValueError, world0)
  /\ kind_of ValueError = InvalidArgument.
Proof. apply C2_gunrock_rejects_sampling. discriminate. Defined.

Lemma C3_witness :
  exists w',
    _initialize_vertices_from_identifiers_list lcg_random G5 [10; 99; 30] world0
    = (Raise IndexError, w') /\
    _initialize_vertices lcg_random G5 (KList [10; 99; 30]) None world0
    = (Raise IndexError, w') /\
    kind_of IndexError = NotFound.
Proof.
  apply C3_missing_identifier_not_found.
  - reflexivity.
  - exists 99. split.
    + simpl. tauto.
    + simpl. lia.
Defined.

Lemma C4_witness :
  exists vertices w',
    _initialize_vertices_from_identifiers_list lcg_random G5 [30; 10; 10] world0
    = (Ok (vertices, 3), w') /\
    length vertices = 3%nat /\
    (renumbered G5 = true ->
     Forall2 (first_match (renumber_map G5)) [30; 10; 10] vertices) /\
    (renumbered G5 = false -> vertices = [30; 10; 10] /\ w' = world0) /\
    _initialize_vertices lcg_random G5 (KList [30; 10; 10]) None world0
    = (Ok (Some vertices, KInt 3), w').
Proof.
  apply (C4_translation_preserves_list lcg_random G5 [30; 10; 10] None world0).
  intros _. repeat constructor; simpl; tauto.
Defined.

Lemma C5_witness :
  exists vertices,
    fst (_initialize_vertices_from_indices_sampling lcg_random G5 3 (Some 42) world0)
    = Ok vertices /\
    Z.of_nat (length vertices) = 3 /\
    List.NoDup vertices /\
    Forall (fun v => 0 <= v < 5) vertices.
Proof.
  apply (proj1 (C5_sampler_contract lcg_random G5 3 (Some 42) world0)).
  simpl. lia.
Defined.

Lemma C6_witness :
  betweenness_centrality lcg_random recording_backend G5 KNone true None false
    (Some "cuda"%string) None float64 world0
  = (Raise ValueError, world0).
Proof.
  apply (proj1 (proj2 (proj2 (proj2
           (C6_implementation_selector lcg_random recording_backend)))));
    discriminate.
Defined.

Lemma C7_witness :
  betweenness_centrality lcg_random recording_backend G5 KNone true (Some [1])
    false None None float64 world0
  = (Raise NotImplementedError, world0).
Proof.
  apply (proj2 (proj1 (C7_weight_endpoints_not_supported lcg_random
                         recording_backend G5 KNone true (Some [1]) false None
                         None float64 world0)
                  (or_introl eq_refl))
           "default"%string (None, KNone) world0);
    reflexivity.
Defined.

Lemma C8_witness :
  edge_betweenness_centrality lcg_random recording_backend G5 KNone true None
    None (other_dtype "int32") world0
  = (Raise TypeError, world0).
Proof.
  apply (proj2 (proj1 (proj2 (C8_result_dtype_type_mismatch lcg_random
                                recording_backend G5 KNone true None false None
                                None (other_dtype "int32") world0 eq_refl)))
           (None, KNone) world0);
    reflexivity.
Defined.

Lemma C9_witness :
  _initialize_vertices lcg_random G5 (KList [10; 20]) (Some 1) world0
  = _initialize_vertices lcg_random G5 (KList [10; 20]) (Some 2) world0 /\
  betweenness_centrality lcg_random recording_backend G5 (KList [10; 20]) true
    None false None (Some 1) float64 world0
  = betweenness_centrality lcg_random recording_backend G5 (KList [10; 20]) true
      None false None (Some 2) float64 world0 /\
  edge_betweenness_centrality lcg_random recording_backend G5 (KList [10; 20])
    true None (Some 1) float64 world0
  = edge_betweenness_centrality lcg_random recording_backend G5 (KList [10; 20])
      true None (Some 2) float64 world0.
Proof.
  apply C9_seed_ignored_without_sampling. right. exists [10; 20]. reflexivity.
Defined.

Lemma C10_witness :
  betweenness_centrality lcg_random recording_backend G5 (KOther (PyStr "abc"))
    true None false None (Some 1) float64 world0
  = (Ok (VertexCall G5 true false None (KOther (PyStr "abc")) None "default"
           float64),
     record Dispatched world0).
Proof.
  apply (proj1 (proj2 (proj2 (C10_unrecognised_k_passes_through lcg_random
                                recording_backend G5 (PyStr "abc") true None
                                (Some 1) float64 world0))));
    reflexivity.
Defined.

(** ** Further properties of the module *)

Section Coverage.

Variable R : PyRandom.
Variable B : Backend.

Implicit Types (G : Graph) (k : kvalue) (w : World R) (seed : option Z).

(** *** What the translation does to the state *)

Lemma looked_up_nil w : looked_up [] w = w.
Proof. destruct w. unfold looked_up. cbn. now rewrite app_nil_r. Qed.

Lemma looked_up_cons (vert : Z) (done : list Z) w :
  looked_up done (record (LookedUp vert) w) = looked_up (vert :: done) w.
Proof. unfold looked_up, record. cbn. now rewrite <- app_assoc. Qed.

(** The comprehension looks identifiers up from the left and stops at the
    first one that is no value of the map. *)
Lemma comprehension_trace G (identifiers : list Z) :
  forall w,
    (Forall (fun vert => In vert (map snd (renumber_map G))) identifiers /\
     snd (list_comprehension R (renumber_lookup R G) identifiers w)
     = looked_up identifiers w) \/
    (exists pre bad post,
        identifiers = pre ++ bad :: post /\
        Forall (fun vert => In vert (map snd (renumber_map G))) pre /\
        ~ In bad (map snd (renumber_map G)) /\
        list_comprehension R (renumber_lookup R G) identifiers w
        = (Raise IndexError, looked_up (pre ++ [bad]) w)).
Proof.
  induction identifiers as [| vert tl IH]; intros w.
  - left. split; [constructor | now rewrite looked_up_nil].
  - cbn [list_comprehension]. unfold bind at 1 3. rewrite renumber_lookup_run.
    destruct (in_dec Z.eq_dec vert (map snd (renumber_map G))) as [Hin | Hout].
    + destruct (lookup_expression_found _ _ Hin) as [ix [-> _]].
      destruct (IH (record (LookedUp vert) w))
        as [[Hall Hworld] | [pre [bad [post [Hsplit [Hpre [Hmiss Hrun]]]]]]].
      * left. split; [now constructor |].
        unfold bind at 1.
        destruct (list_comprehension R (renumber_lookup R G) tl _) as [[vs | e] w'];
          unfold ret; cbn [snd] in *; rewrite Hworld; apply looked_up_cons.
      * right. exists (vert :: pre), bad, post.
        split; [now rewrite Hsplit |]. split; [now constructor |].
        split; [exact Hmiss |].
        unfold bind at 1. rewrite Hrun. now rewrite looked_up_cons.
    + right. exists [], vert, tl. split; [reflexivity |].
      split; [constructor |]. split; [exact Hout |].
      rewrite (lookup_expression_missing _ _ Hout). cbn [app].
      now rewrite <- looked_up_cons, looked_up_nil.
Qed.

Lemma comprehension_stops G (pre : list Z) (bad : Z) (post : list Z) :
  forall w,
    Forall (fun vert => In vert (map snd (renumber_map G))) pre ->
    ~ In bad (map snd (renumber_map G)) ->
    list_comprehension R (renumber_lookup R G) (pre ++ bad :: post) w
    = (Raise IndexError, looked_up (pre ++ [bad]) w).
Proof.
  induction pre as [| vert pre IH]; intros w Hpre Hbad.
  - cbn [app list_comprehension]. unfold bind at 1. rewrite renumber_lookup_run.
    rewrite (lookup_expression_missing _ _ Hbad).
    now rewrite <- looked_up_cons, looked_up_nil.
  - inversion Hpre as [| ? ? Hvert Hrest]; subst.
    cbn [app list_comprehension]. unfold bind at 1. rewrite renumber_lookup_run.
    destruct (lookup_expression_found _ _ Hvert) as [ix [-> _]].
    unfold bind at 1. rewrite (IH _ Hrest Hbad).
    now rewrite looked_up_cons.
Qed.

Lemma comprehension_all G (identifiers : list Z) w :
  Forall (fun vert => In vert (map snd (renumber_map G))) identifiers ->
  snd (list_comprehension R (renumber_lookup R G) identifiers w)
  = looked_up identifiers w.
Proof.
  intros Hall.
  destruct (comprehension_trace G identifiers w)
    as [[_ Hworld] | [pre [bad [post [Hsplit [_ [Hmiss _]]]]]]]; [exact Hworld |].
  exfalso. apply Hmiss. rewrite List.Forall_forall in Hall. apply Hall.
  rewrite Hsplit. apply in_or_app. right. now left.
Qed.

Lemma comprehension_frame G (identifiers : list Z) w :
  generator_untouched w
    (snd (list_comprehension R (renumber_lookup R G) identifiers w)).
Proof.
  destruct (comprehension_trace G identifiers w)
    as [[_ ->] | [pre [bad [post [_ [_ [_ ->]]]]]]]; split; reflexivity.
Qed.

Lemma initialize_vertices_frame G k seed w :
  (forall n, k <> KInt n) ->
  generator_untouched w (snd (_initialize_vertices R G k seed w)).
Proof.
  intros Hk. destruct k as [| n | identifiers | o].
  - split; reflexivity.
  - now destruct (Hk n).
  - rewrite initialize_vertices_list.
    unfold _initialize_vertices_from_identifiers_list, bind.
    destruct (renumbered G); [| split; reflexivity].
    pose proof (comprehension_frame G identifiers w) as Hf.
    destruct (list_comprehension R (renumber_lookup R G) identifiers w)
      as [[vs | e] w']; exact Hf.
  - split; reflexivity.
Qed.

(** X3. Without an integer [k], neither entry point touches the generator of
    [random]: whether the call is rejected or reaches the compiled wrapper,
    the generator state and the entropy position are those the caller had. *)
Theorem X3_generator_untouched_without_integer_k
    G k normalized (weight : option (Weights B)) (endpoints : bool)
    (implementation : option string) seed (result_dtype : dtype) w :
  (forall n, k <> KInt n) ->
  generator_untouched w
    (snd (betweenness_centrality R B G k normalized weight endpoints
            implementation seed result_dtype w)) /\
  generator_untouched w
    (snd (edge_betweenness_centrality R B G k normalized weight seed
            result_dtype w)).
Proof.
  intros Hk. pose proof (initialize_vertices_frame G k seed w Hk) as Hinit.
  split.
  - rewrite betweenness_centrality_run.
    pose proof (verify_pure R implementation k w) as Hpure.
    destruct (_initialize_and_verify_implementation R implementation k w)
      as [[name | e] w1]; cbn [snd] in Hpure; subst w1; [| split; reflexivity].
    destruct (_initialize_vertices R G k seed w) as [[vk | e] w2];
      cbn [snd] in *; [| exact Hinit].
    destruct endpoints; [exact Hinit |].
    destruct (weight_given weight); [exact Hinit |].
    destruct (dtype_not_supported result_dtype); exact Hinit.
  - rewrite edge_betweenness_centrality_run.
    destruct (_initialize_vertices R G k seed w) as [[vk | e] w2];
      cbn [snd] in *; [| exact Hinit].
    destruct (weight_given weight); [exact Hinit |].
    destruct (dtype_not_supported result_dtype); exact Hinit.
Qed.

(** X4. An integer [k] with an explicit seed resets the generator of
    [random]: after the source set is built the generator state is the same
    whatever state the caller had left it in, also when the sampler rejects
    [k], and [edge_betweenness_centrality] leaves it so whether it then
    rejects the call or not.  The work done is one seeding and one draw. *)
Theorem X4_integer_k_resets_generator
    G (n : Z) normalized (weight : option (Weights B)) (a : Z)
    (result_dtype : dtype) (w1 w2 : World R) :
  rng_state (snd (_initialize_vertices R G (KInt n) (Some a) w1))
  = rng_state (snd (_initialize_vertices R G (KInt n) (Some a) w2)) /\
  rng_state (snd (edge_betweenness_centrality R B G (KInt n) normalized weight
                    (Some a) result_dtype w1))
  = rng_state (snd (edge_betweenness_centrality R B G (KInt n) normalized weight
                      (Some a) result_dtype w2)) /\
  work (snd (_initialize_vertices R G (KInt n) (Some a) w1))
  = work w1 ++ [Seeded (Some a); Sampled (number_of_vertices G) n].
Proof.
  assert (Hrun : forall w,
             _initialize_vertices R G (KInt n) (Some a) w =
             (match fst (sample R Z (range (number_of_vertices G)) n (seed_gen R a)) with
              | Ok vs => Ok (Some vs, KInt n)
              | Raise e => Raise e
              end,
              mkWorld
                (snd (sample R Z (range (number_of_vertices G)) n (seed_gen R a)))
                (entropy w) (entropy_reads w)
                (work w ++ [Seeded (Some a); Sampled (number_of_vertices G) n]))).
  { intros w. cbn [_initialize_vertices]. unfold bind at 1. rewrite sampling_run.
    rewrite range_length. unfold with_rng, record, ret.
    cbn [reseed with_rng rng_state entropy entropy_reads work fst snd].
    rewrite <- app_assoc. cbn [app].
    destruct (sample R Z _ n _) as [[vs | e] g]; reflexivity. }
  split; [| split].
  - now rewrite !Hrun.
  - rewrite !edge_betweenness_centrality_run, !Hrun.
    destruct (fst (sample R Z _ n _)); [| reflexivity].
    destruct (weight_given weight); [reflexivity |].
    destruct (dtype_not_supported result_dtype); reflexivity.
  - now rewrite Hrun.
Qed.

(** X10. On a renumbered graph the translation looks identifiers up strictly
    in list order, once each, and stops at the first one that is no value of
    the renumbering map: the identifiers after it are never looked up. *)
Theorem X10_lookups_in_list_order G (identifiers : list Z) w :
  renumbered G = true ->
  (Forall (fun vert => In vert (map snd (renumber_map G))) identifiers ->
   work (snd (_initialize_vertices_from_identifiers_list R G identifiers w))
   = work w ++ map LookedUp identifiers) /\
  (forall pre bad post,
      identifiers = pre ++ bad :: post ->
      Forall (fun vert => In vert (map snd (renumber_map G))) pre ->
      ~ In bad (map snd (renumber_map G)) ->
      work (snd (_initialize_vertices_from_identifiers_list R G identifiers w))
      = work w ++ map LookedUp (pre ++ [bad])).
Proof.
  intros Hr. split.
  - intros Hall. rewrite (translation_run_renumbered R _ _ _ Hr).
    pose proof (comprehension_all G identifiers w Hall) as Hworld.
    destruct (list_comprehension R (renumber_lookup R G) identifiers w)
      as [[vs | e] w']; cbn [snd] in *; now rewrite Hworld.
  - intros pre bad post -> Hpre Hbad.
    rewrite (translation_run_renumbered R _ _ _ Hr).
    now rewrite (comprehension_stops G pre bad post w Hpre Hbad).
Qed.

(** *** The sampler at its bounds *)

(** A sample that was returned obeys the bounds the generator checks. *)
Lemma sampling_ok_inv G (n : Z) seed w (vertices : list Z) :
  fst (_initialize_vertices_from_indices_sampling R G n seed w) = Ok vertices ->
  0 <= n <= Z.of_nat (number_of_vertices G) /\
  length vertices = Z.to_nat n /\
  exists rest, Permutation (vertices ++ rest) (range (number_of_vertices G)).
Proof.
  rewrite sampling_run. cbn [fst]. intros Hok.
  destruct (Z_lt_ge_dec n 0) as [Hneg |];
    [rewrite sample_out_of_range in Hok by (now left); discriminate |].
  destruct (Z_lt_ge_dec (Z.of_nat (number_of_vertices G)) n) as [Hbig |];
    [rewrite sample_out_of_range in Hok
       by (right; now rewrite range_length); discriminate |].
  split; [lia |].
  destruct (sample_in_range R Z (range (number_of_vertices G)) n
              (rng_state (reseed seed (record (Seeded seed) w))))
    as [chosen [rest [Hrun [Hlen Hperm]]]].
  { rewrite range_length. lia. }
  rewrite Hrun in Hok. injection Hok as <-. eauto.
Qed.

(** X2. The sampler at its two bounds: asked for 0 vertices it returns the
    empty list, on any graph; asked for as many vertices as the graph has, it
    returns every positional index exactly once, in some order. *)
Theorem X2_sampling_none_and_all G seed w :
  fst (_initialize_vertices_from_indices_sampling R G 0 seed w) = Ok [] /\
  exists vertices,
    fst (_initialize_vertices_from_indices_sampling R G
           (Z.of_nat (number_of_vertices G)) seed w) = Ok vertices /\
    Permutation vertices (range (number_of_vertices G)).
Proof.
  split.
  - rewrite sampling_run. cbn [fst].
    destruct (sample_in_range R Z (range (number_of_vertices G)) 0
                (rng_state (reseed seed (record (Seeded seed) w))))
      as [chosen [rest [Hrun [Hlen _]]]]; [lia |].
    rewrite Hrun. destruct chosen; [reflexivity | discriminate].
  - rewrite sampling_run. cbn [fst].
    destruct (sample_in_range R Z (range (number_of_vertices G))
                (Z.of_nat (number_of_vertices G))
                (rng_state (reseed seed (record (Seeded seed) w))))
      as [chosen [rest [Hrun [Hlen Hperm]]]].
    { rewrite range_length. lia. }
    exists chosen. split; [exact Hrun |].
    pose proof (Permutation_length Hperm) as Hl.
    rewrite length_app, range_length, Hlen, Nat2Z.id in Hl.
    destruct rest; [| cbn in Hl; lia].
    now rewrite app_nil_r in Hperm.
Qed.

(** X8. Sampling works on positions, not on identifiers: it reads nothing of
    the graph but its number of vertices, so a graph with the same count and
    another renumbering map gives the same source set; and on a graph whose
    identifiers all lie outside [0, N), no sampled vertex is an identifier
    of the graph. *)
Theorem X8_sampling_ignores_renumbering G (n : Z) seed w :
  (forall G',
      number_of_vertices G' = number_of_vertices G ->
      _initialize_vertices R G' (KInt n) seed w
      = _initialize_vertices R G (KInt n) seed w) /\
  (Forall (fun id => id < 0 \/ Z.of_nat (number_of_vertices G) <= id)
          (map snd (renumber_map G)) ->
   forall vertices,
     fst (_initialize_vertices_from_indices_sampling R G n seed w) = Ok vertices ->
     Forall (fun v => ~ In v (map snd (renumber_map G))) vertices).
Proof.
  split.
  - intros G' HN. cbn [_initialize_vertices]. unfold bind.
    now rewrite !sampling_run, HN.
  - intros Hids vertices Hok.
    destruct (sampling_ok_inv G n seed w vertices Hok) as [_ [_ [rest Hperm]]].
    apply List.Forall_forall. intros v Hv Hid.
    assert (Hrange : 0 <= v < Z.of_nat (number_of_vertices G)).
    { apply range_bounds. apply (Permutation_in _ Hperm).
      apply in_or_app. now left. }
    rewrite List.Forall_forall in Hids. specialize (Hids v Hid). lia.
Qed.

(** *** The translation as a function of the identifier *)

Lemma comprehension_ok_inv G (identifiers : list Z) w (vertices : list Z) w' :
  list_comprehension R (renumber_lookup R G) identifiers w = (Ok vertices, w') ->
  Forall (fun vert => In vert (map snd (renumber_map G))) identifiers /\
  Forall2 (first_match (renumber_map G)) identifiers vertices.
Proof.
  intros Hok.
  destruct (comprehension_trace G identifiers w)
    as [[Hall _] | [pre [bad [post [_ [_ [_ Hrun]]]]]]]; [| congruence].
  split; [exact Hall |].
  destruct (comprehension_found R G identifiers w Hall) as [vs [w2 [Hrun Hmatch]]].
  congruence.
Qed.

Lemma first_match_functional (s : Series) (vert ix1 ix2 : Z) :
  first_match s vert ix1 -> first_match s vert ix2 -> ix1 = ix2.
Proof.
  intros [p1 [H1 F1]] [p2 [H2 F2]].
  destruct (lt_eq_lt_dec p1 p2) as [[Hlt | ->] | Hlt].
  - now destruct (F2 p1 _ Hlt H1).
  - congruence.
  - now destruct (F1 p2 _ Hlt H2).
Qed.

Lemma labels_distinct_positions (s : Series) :
  forall (p1 p2 : nat) (ix v1 v2 : Z),
    List.NoDup (map fst s) ->
    s !! p1 = Some (ix, v1) -> s !! p2 = Some (ix, v2) -> p1 = p2.
Proof.
  induction s as [| row s IH]; intros p1 p2 ix v1 v2 Hnd H1 H2; [discriminate |].
  cbn [map] in Hnd. inversion Hnd as [| ? ? Hfresh Hnd']; subst.
  assert (Hin : forall p v, s !! p = Some (fst row, v) -> In (fst row) (map fst s)).
  { intros p v Hp. apply in_map_iff. exists (fst row, v). split; [reflexivity |].
    apply list_elem_of_In. eapply list_elem_of_lookup_2. exact Hp. }
  destruct p1 as [| p1], p2 as [| p2]; cbn in H1, H2.
  - reflexivity.
  - injection H1 as ->. now destruct (Hfresh (Hin p2 v2 H2)).
  - injection H2 as ->. now destruct (Hfresh (Hin p1 v1 H1)).
  - f_equal. exact (IH p1 p2 ix v1 v2 Hnd' H1 H2).
Qed.

Lemma first_match_injective (s : Series) (v1 v2 ix : Z) :
  List.NoDup (map fst s) ->
  first_match s v1 ix -> first_match s v2 ix -> v1 = v2.
Proof.
  intros Hnd [p1 [H1 _]] [p2 [H2 _]].
  pose proof (labels_distinct_positions s p1 p2 ix v1 v2 Hnd H1 H2) as ->.
  congruence.
Qed.

(** X5. On a renumbered graph a successful translation acts as a function of
    the identifier: equal identifiers, wherever they stand in the list, get
    equal indices; and when the labels of the renumbering map are pairwise
    distinct, different identifiers get different indices, so a list without
    repetition gives a source set without repetition. *)
Theorem X5_translation_injective G (identifiers : list Z) w
    (vertices : list Z) (k' : Z) w' :
  renumbered G = true ->
  _initialize_vertices_from_identifiers_list R G identifiers w
  = (Ok (vertices, k'), w') ->
  (forall (i j : nat) (a b x y : Z),
      identifiers !! i = Some a -> identifiers !! j = Some b ->
      vertices !! i = Some x -> vertices !! j = Some y ->
      (a = b -> x = y) /\
      (List.NoDup (map fst (renumber_map G)) -> x = y -> a = b)) /\
  (List.NoDup (map fst (renumber_map G)) ->
   List.NoDup identifiers -> List.NoDup vertices).
Proof.
  intros Hr Hok. rewrite (translation_run_renumbered R _ _ _ Hr) in Hok.
  destruct (list_comprehension R (renumber_lookup R G) identifiers w)
    as [[vs | e] w1] eqn:Hrun; [| discriminate].
  injection Hok as <- _ _.
  destruct (comprehension_ok_inv G identifiers w vs w1 Hrun) as [_ Hmatch].
  assert (Hpoint : forall (i j : nat) (a b x y : Z),
             identifiers !! i = Some a -> identifiers !! j = Some b ->
             vs !! i = Some x -> vs !! j = Some y ->
             (a = b -> x = y) /\
             (List.NoDup (map fst (renumber_map G)) -> x = y -> a = b)).
  { intros i j a b x y Ha Hb Hx Hy.
    pose proof (Forall2_lookup_lr _ _ _ _ _ _ Hmatch Ha Hx) as Hax.
    pose proof (Forall2_lookup_lr _ _ _ _ _ _ Hmatch Hb Hy) as Hby.
    split.
    - intros ->. exact (first_match_functional _ _ _ _ Hax Hby).
    - intros Hnd ->. exact (first_match_injective _ _ _ _ Hnd Hax Hby). }
  split; [exact Hpoint |].
  intros Hnd Hids. apply NoDup_ListNoDup. apply NoDup_ListNoDup in Hids.
  apply NoDup_alt. intros i j x Hx Hy.
  destruct (Forall2_lookup_r _ _ _ _ _ Hmatch Hx) as [a [Ha _]].
  destruct (Forall2_lookup_r _ _ _ _ _ Hmatch Hy) as [b [Hb _]].
  destruct (Hpoint i j a b x x Ha Hb Hx Hy) as [_ Hinj].
  specialize (Hinj Hnd eq_refl). subst b.
  exact (proj1 (NoDup_alt identifiers) Hids i j a Ha Hb).
Qed.

(** *** What the source set construction returns, and when it fails *)

Lemma initialize_vertices_result G k seed w
    (vertices : option (list Z)) (k' : kvalue) w' :
  _initialize_vertices R G k seed w = (Ok (vertices, k'), w') ->
  match vertices with
  | Some vs => k' = KInt (Z.of_nat (length vs))
  | None =>
      k' = k /\ w' = w /\ (forall n, k <> KInt n) /\ (forall l, k <> KList l)
  end.
Proof.
  destruct k as [| n | identifiers | o].
  - cbn. unfold ret. intros H. injection H as <- <- <-. repeat split; discriminate.
  - cbn [_initialize_vertices]. unfold bind at 1.
    destruct (_initialize_vertices_from_indices_sampling R G n seed w)
      as [[vs | e] w1] eqn:Hrun; [| discriminate].
    unfold ret. intros H. injection H as <- <- <-.
    destruct (sampling_ok_inv G n seed w vs) as [Hn [Hlen _]].
    { now rewrite Hrun. }
    rewrite Hlen, Z2Nat.id by lia. reflexivity.
  - rewrite initialize_vertices_list.
    unfold _initialize_vertices_from_identifiers_list, bind.
    destruct (renumbered G).
    + destruct (list_comprehension R (renumber_lookup R G) identifiers w)
        as [[vs | e] w1]; [| discriminate].
      unfold ret. cbn [fst snd]. intros H. injection H as <- <- <-. reflexivity.
    + unfold ret. cbn [fst snd]. intros H. injection H as <- <- <-. reflexivity.
  - cbn. unfold ret. intros H. injection H as <- <- <-. repeat split; discriminate.
Qed.

(** X6. Whenever the source set is built with a vertex list, the [k] that
    goes with it is the length of that list, on the sampling path as on the
    translation path; with no vertex list, [k] is the caller's own, the state
    is untouched, and the caller's [k] was neither an integer nor a list. *)
Theorem X6_k_is_length_of_vertices G k seed w
    (vertices : option (list Z)) (k' : kvalue) w' :
  _initialize_vertices R G k seed w = (Ok (vertices, k'), w') ->
  match vertices with
  | Some vs => k' = KInt (Z.of_nat (length vs))
  | None =>
      k' = k /\ w' = w /\ (forall n, k <> KInt n) /\ (forall l, k <> KList l)
  end.
Proof.
  intros Hrun. destruct vertices as [vs |].
  - exact (initialize_vertices_result G k seed w (Some vs) k' w' Hrun).
  - exact (initialize_vertices_result G k seed w None k' w' Hrun).
Qed.

Lemma initialize_vertices_int_rejects G (n : Z) seed w :
  n < 0 \/ Z.of_nat (number_of_vertices G) < n ->
  fst (_initialize_vertices R G (KInt n) seed w) = Raise ValueError.
Proof.
  intros Hn. cbn [_initialize_vertices]. unfold bind at 1. rewrite sampling_run.
  pose proof (sample_out_of_range R Z (range (number_of_vertices G)) n
                (rng_state (reseed seed (record (Seeded seed) w)))) as Hs.
  rewrite range_length in Hs. specialize (Hs Hn).
  destruct (sample R Z _ n _) as [r g]. cbn [fst snd] in *. now subst r.
Qed.

(** X7. Building the source set fails in exactly two ways: with [ValueError]
    when [k] is an integer below 0 or above the number of vertices, and with
    [IndexError] when [k] is a list, the graph is renumbered and some
    identifier of the list is no value of the renumbering map.  In every other
    case it succeeds: [None], an unrecognised value, an integer in range, any
    list on a graph that is not renumbered, a list of known identifiers. *)
Theorem X7_source_set_failures G k seed w (e : exn) :
  fst (_initialize_vertices R G k seed w) = Raise e <->
  (e = ValueError /\
   exists n, k = KInt n /\ (n < 0 \/ Z.of_nat (number_of_vertices G) < n)) \/
  (e = IndexError /\
   exists identifiers,
     k = KList identifiers /\ renumbered G = true /\
     exists vert, In vert identifiers /\ ~ In vert (map snd (renumber_map G))).
Proof.
  split.
  - destruct k as [| n | identifiers | o]; try discriminate.
    + cbn [_initialize_vertices]. unfold bind at 1. rewrite sampling_run.
      destruct (Z_lt_ge_dec n 0) as [Hneg | Hpos];
        [| destruct (Z_lt_ge_dec (Z.of_nat (number_of_vertices G)) n)
            as [Hbig | Hsmall]].
      * pose proof (sample_out_of_range R Z (range (number_of_vertices G)) n
                      (rng_state (reseed seed (record (Seeded seed) w)))
                      (or_introl Hneg)) as Hs.
        destruct (sample R Z _ n _) as [r g]. cbn [fst snd] in *. subst r.
        intros H. injection H as <-. left. split; [reflexivity |]. eauto.
      * pose proof (sample_out_of_range R Z (range (number_of_vertices G)) n
                      (rng_state (reseed seed (record (Seeded seed) w)))) as Hs.
        rewrite range_length in Hs. specialize (Hs (or_intror Hbig)).
        destruct (sample R Z _ n _) as [r g]. cbn [fst snd] in *. subst r.
        intros H. injection H as <-. left. split; [reflexivity |]. eauto.
      * destruct (sample_in_range R Z (range (number_of_vertices G)) n
                    (rng_state (reseed seed (record (Seeded seed) w))))
          as [chosen [rest [Hs _]]]; [rewrite range_length; lia |].
        destruct (sample R Z _ n _) as [r g]. cbn [fst snd] in *. subst r.
        discriminate.
    + rewrite initialize_vertices_list.
      destruct (renumbered G) eqn:Hr;
        [| rewrite (translation_run_identity R _ _ _ Hr); discriminate].
      rewrite (translation_run_renumbered R _ _ _ Hr).
      destruct (comprehension_trace G identifiers w)
        as [[Hall _] | [pre [bad [post [Hsplit [_ [Hmiss Hrun]]]]]]].
      * destruct (comprehension_found R G identifiers w Hall)
          as [vs [w2 [-> _]]]. discriminate.
      * rewrite Hrun. cbn [fst]. intros H. injection H as <-.
        right. split; [reflexivity |]. exists identifiers.
        split; [reflexivity |]. split; [reflexivity |].
        exists bad. split; [| exact Hmiss].
        rewrite Hsplit. apply in_or_app. right. now left.
  - intros [[-> [n [-> Hn]]] | [-> [identifiers [-> [Hr Hbad]]]]].
    + now apply initialize_vertices_int_rejects.
    + rewrite initialize_vertices_list, (translation_run_renumbered R _ _ _ Hr).
      destruct (comprehension_missing R G identifiers w Hbad) as [w2 ->].
      reflexivity.
Qed.

(** X11. The length of a list is not checked against the number of vertices:
    a list longer than the graph has vertices (of known identifiers, where
    the graph is renumbered) is accepted and gives a [k] above the vertex
    count, whereas the same number passed as an integer is rejected with
    [ValueError]. *)
Theorem X11_list_length_not_checked G (identifiers : list Z) seed w :
  (renumbered G = true ->
   Forall (fun vert => In vert (map snd (renumber_map G))) identifiers) ->
  Z.of_nat (number_of_vertices G) < Z.of_nat (length identifiers) ->
  (exists vertices w',
      _initialize_vertices R G (KList identifiers) seed w
      = (Ok (Some vertices, KInt (Z.of_nat (length identifiers))), w') /\
      length vertices = length identifiers) /\
  fst (_initialize_vertices R G (KInt (Z.of_nat (length identifiers))) seed w)
  = Raise ValueError.
Proof.
  intros Hall Hlong. split.
  - rewrite initialize_vertices_list. destruct (renumbered G) eqn:Hr.
    + rewrite (translation_run_renumbered R _ _ _ Hr).
      destruct (comprehension_found R G identifiers w (Hall eq_refl))
        as [vs [w' [Hrun _]]].
      pose proof (comprehension_length R G identifiers w vs w' Hrun) as Hlen.
      rewrite Hrun. cbn [fst snd]. rewrite Hlen. eauto.
    + rewrite (translation_run_identity R _ _ _ Hr). cbn [fst snd]. eauto.
  - apply initialize_vertices_int_rejects. now right.
Qed.

(** X12. A [k] of 0 and an empty list are requests like any other, not ways
    of saying [None]: each gives an empty source set with [k = 0] (the empty
    list with no work at all, on any graph), and with "gunrock" each is
    rejected as sampling. *)
Theorem X12_zero_and_empty_are_not_none
    G normalized (weight : option (Weights B)) (endpoints : bool) seed
    (result_dtype : dtype) w :
  fst (_initialize_vertices R G (KInt 0) seed w) = Ok (Some [], KInt 0) /\
  _initialize_vertices R G (KList []) seed w = (Ok (Some [], KInt 0), w) /\
  betweenness_centrality R B G (KInt 0) normalized weight endpoints
    (Some "gunrock"%string) seed result_dtype w = (Raise ValueError, w) /\
  betweenness_centrality R B G (KList []) normalized weight endpoints
    (Some "gunrock"%string) seed result_dtype w = (Raise ValueError, w).
Proof.
  split; [| split; [| split]].
  - cbn [_initialize_vertices]. unfold bind at 1. rewrite sampling_run.
    destruct (sample_in_range R Z (range (number_of_vertices G)) 0
                (rng_state (reseed seed (record (Seeded seed) w))))
      as [chosen [rest [Hrun [Hlen _]]]]; [lia |].
    destruct (sample R Z _ 0 _) as [r g]. cbn [fst snd] in *. subst r.
    destruct chosen; [reflexivity | discriminate].
  - rewrite initialize_vertices_list.
    unfold _initialize_vertices_from_identifiers_list, bind.
    destruct (renumbered G); reflexivity.
  - rewrite betweenness_centrality_run. reflexivity.
  - rewrite betweenness_centrality_run. reflexivity.
Qed.

(** *** The edge entry point, and the two entry points side by side *)

Lemma dispatched_after_call w : dispatched (record Dispatched w) = true.
Proof.
  unfold dispatched, record. cbn [work]. rewrite existsb_app. cbn.
  apply orb_true_r.
Qed.

(** X1. [edge_betweenness_centrality] builds the source set first, and an
    exception of the sampler or the translator ends the call; then it rejects
    a weight, then an unsupported result precision.  It has no implementation
    check.  It reaches the compiled wrapper exactly when the source set was
    built, no weight is given and the precision is supported, and hands over
    the [k] and the vertices that were built. *)
Theorem X1_edge_validation_order
    G k normalized (weight : option (Weights B)) seed (result_dtype : dtype) w :
  let run :=
    edge_betweenness_centrality R B G k normalized weight seed result_dtype w in
  let init := _initialize_vertices R G k seed w in
  (forall e, fst init = Raise e -> run = (Raise e, snd init)) /\
  (forall vk, fst init = Ok vk ->
     (weight_given weight = true -> run = (Raise NotImplementedError, snd init)) /\
     (weight_given weight = false -> dtype_not_supported result_dtype = true ->
      run = (Raise TypeError, snd init)) /\
     (weight_given weight = false -> dtype_not_supported result_dtype = false ->
      run = (edge_betweenness_centrality_wrapper B G normalized weight
               (snd vk) (fst vk) result_dtype,
             record Dispatched (snd init)))) /\
  (dispatched w = false ->
   (dispatched (snd run) = true <->
    (exists vk, fst init = Ok vk) /\ weight_given weight = false /\
    dtype_not_supported result_dtype = false)).
Proof.
  intros run init. subst run init.
  rewrite edge_betweenness_centrality_run.
  pose proof (initialize_vertices_no_dispatch R G k seed w) as Hinit.
  destruct (_initialize_vertices R G k seed w) as [[vk | e] w2]; cbn [fst snd] in *.
  - split; [discriminate |]. split.
    + intros vk' Hvk. injection Hvk as <-.
      split; [intros ->; reflexivity |].
      split; intros -> ->; reflexivity.
    + intros Hw.
      destruct (weight_given weight);
        [| destruct (dtype_not_supported result_dtype)]; cbn [snd].
      * split; [congruence | intros [_ [H _]]; discriminate].
      * split; [congruence | intros [_ [_ H]]; discriminate].
      * split; [eauto | intros _; apply dispatched_after_call].
  - split; [intros e' H; now injection H as <- |].
    split; [discriminate |].
    intros Hw. split; [congruence | intros [[vk H] _]; discriminate].
Qed.

(** X9. With the default implementation and endpoints [False], the two entry
    points treat a call alike: they leave the same state, and either both
    raise the same exception without calling a compiled wrapper, or each
    calls its wrapper with the same [k] and the same vertices. *)
Theorem X9_entry_points_agree
    G k normalized (weight : option (Weights B)) (implementation : option string)
    seed (result_dtype : dtype) w :
  resolved implementation = "default"%string ->
  let vertex :=
    betweenness_centrality R B G k normalized weight false implementation seed
      result_dtype w in
  let edge :=
    edge_betweenness_centrality R B G k normalized weight seed result_dtype w in
  snd vertex = snd edge /\
  ((exists e,
       fst vertex = Raise e /\ fst edge = Raise e /\
       dispatched (snd vertex) = dispatched w) \/
   (exists vertices k',
       fst (_initialize_vertices R G k seed w) = Ok (vertices, k') /\
       fst vertex
       = betweenness_centrality_wrapper B G normalized false weight k' vertices
           "default"%string result_dtype /\
       fst edge
       = edge_betweenness_centrality_wrapper B G normalized weight k' vertices
           result_dtype /\
       dispatched (snd vertex) = true)).
Proof.
  intros Hname vertex edge. subst vertex edge.
  rewrite betweenness_centrality_run, edge_betweenness_centrality_run.
  rewrite (verify_accepts R implementation k w)
    by (rewrite Hname; first [now left | intros Hg; discriminate Hg]).
  rewrite Hname.
  pose proof (initialize_vertices_no_dispatch R G k seed w) as Hinit.
  destruct (_initialize_vertices R G k seed w) as [[[vs k'] | e] w2];
    cbn [fst snd] in *; [| split; [reflexivity | left; eauto]].
  destruct (weight_given weight); [split; [reflexivity | left; eauto] |].
  destruct (dtype_not_supported result_dtype);
    [split; [reflexivity | left; eauto] |].
  split; [reflexivity |]. right. exists vs, k'.
  repeat split. apply dispatched_after_call.
Qed.

(** X13. The flag [normalized] is only handed on: it never decides whether
    a call is rejected, nor what work is done.  Two calls that differ in it
    alone leave the same state, and when no compiled wrapper is called they
    raise the same exception. *)
Theorem X13_normalized_only_forwarded
    G k (n1 n2 : bool) (weight : option (Weights B)) (endpoints : bool)
    (implementation : option string) seed (result_dtype : dtype) w :
  dispatched w = false ->
  (snd (betweenness_centrality R B G k n1 weight endpoints implementation seed
          result_dtype w)
   = snd (betweenness_centrality R B G k n2 weight endpoints implementation seed
            result_dtype w) /\
   (dispatched (snd (betweenness_centrality R B G k n1 weight endpoints
                       implementation seed result_dtype w)) = false ->
    fst (betweenness_centrality R B G k n1 weight endpoints implementation seed
           result_dtype w)
    = fst (betweenness_centrality R B G k n2 weight endpoints implementation seed
             result_dtype w))) /\
  (snd (edge_betweenness_centrality R B G k n1 weight seed result_dtype w)
   = snd (edge_betweenness_centrality R B G k n2 weight seed result_dtype w) /\
   (dispatched (snd (edge_betweenness_centrality R B G k n1 weight seed
                       result_dtype w)) = false ->
    fst (edge_betweenness_centrality R B G k n1 weight seed result_dtype w)
    = fst (edge_betweenness_centrality R B G k n2 weight seed result_dtype w))).
Proof.
  intros Hw. split.
  - rewrite !betweenness_centrality_run.
    destruct (_initialize_and_verify_implementation R implementation k w)
      as [[name | e] w1]; [| split; reflexivity].
    destruct (_initialize_vertices R G k seed w1) as [[vk | e] w2];
      [| split; reflexivity].
    destruct endpoints; [split; reflexivity |].
    destruct (weight_given weight); [split; reflexivity |].
    destruct (dtype_not_supported result_dtype); [split; reflexivity |].
    cbn [fst snd]. split; [reflexivity |].
    rewrite dispatched_after_call. discriminate.
  - rewrite !edge_betweenness_centrality_run.
    destruct (_initialize_vertices R G k seed w) as [[vk | e] w2];
      [| split; reflexivity].
    destruct (weight_given weight); [split; reflexivity |].
    destruct (dtype_not_supported result_dtype); [split; reflexivity |].
    cbn [fst snd]. split; [reflexivity |].
    rewrite dispatched_after_call. discriminate.
Qed.

(** *** What reaches the compiled wrappers *)



End Coverage.

(** ** The further properties at concrete inputs *)

Lemma X3_witness :
  generator_untouched world0
    (snd (betweenness_centrality lcg_random recording_backend G5
            (KList [10; 99]) true None false None (Some 1) float64 world0)) /\
  generator_untouched world0
    (snd (edge_betweenness_centrality lcg_random recording_backend G5
            (KList [10; 99]) true None (Some 1) float64 world0)).
Proof.
  apply X3_generator_untouched_without_integer_k. intros n. discriminate.
Defined.

Lemma X5_witness : List.NoDup [2; 0; 4].
Proof.
  apply (proj2 (X5_translation_injective lcg_random G5 [30; 10; 50] world0
                  [2; 0; 4] 3
                  (snd (_initialize_vertices_from_identifiers_list lcg_random G5
                          [30; 10; 50] world0))
                  eq_refl eq_refl));
    repeat (constructor; [simpl; lia |]); constructor.
Defined.

Lemma X6_witness : KInt 2 = KInt (Z.of_nat (length [2; 0])).
Proof.
  apply (X6_k_is_length_of_vertices lcg_random G5 (KList [30; 10]) None world0
           (Some [2; 0]) (KInt 2)
           (snd (_initialize_vertices lcg_random G5 (KList [30; 10]) None world0))
           eq_refl).
Defined.

Lemma X8_witness :
  Forall (fun v => ~ In v (map snd (renumber_map G5))) [2; 0; 4].
Proof.
  apply (proj2 (X8_sampling_ignores_renumbering lcg_random G5 3 (Some 42) world0)).
  - apply List.Forall_forall. intros id Hid. cbn in *. lia.
  - reflexivity.
Defined.

Lemma X9_witness :
  snd (betweenness_centrality lcg_random recording_backend G5 (KInt 2) true
         (Some [1]) false None (Some 1) float64 world0)
  = snd (edge_betweenness_centrality lcg_random recording_backend G5 (KInt 2) true
           (Some [1]) (Some 1) float64 world0).
Proof.
  apply (proj1 (X9_entry_points_agree lcg_random recording_backend G5 (KInt 2)
                  true (Some [1]) None (Some 1) float64 world0 eq_refl)).
Defined.

Lemma X10_witness :
  work (snd (_initialize_vertices_from_identifiers_list lcg_random G5
               [10; 99; 30] world0))
  = work world0 ++ map LookedUp ([10] ++ [99]).
Proof.
  apply (proj2 (X10_lookups_in_list_order lcg_random G5 [10; 99; 30] world0
                  eq_refl)
           [10] 99 [30]).
  - reflexivity.
  - constructor; [simpl; tauto | constructor].
  - simpl. lia.
Defined.

Lemma X11_witness :
  (exists vertices w',
      _initialize_vertices lcg_random G3 (KList [0; 1; 2; 2]) None world0
      = (Ok (Some vertices, KInt (Z.of_nat (length [0; 1; 2; 2]))), w') /\
      length vertices = length [0; 1; 2; 2]) /\
  fst (_initialize_vertices lcg_random G3
         (KInt (Z.of_nat (length [0; 1; 2; 2]))) None world0)
  = Raise ValueError.
Proof.
  apply X11_list_length_not_checked.
  - intros Hr. discriminate Hr.
  - simpl. lia.
Defined.

Lemma X13_witness :
  snd (betweenness_centrality lcg_random recording_backend G5 (KInt 2) true
         None false None (Some 1) float64 world0)
  = snd (betweenness_centrality lcg_random recording_backend G5 (KInt 2) false
           None false None (Some 1) float64 world0).
Proof.
  apply (proj1 (proj1 (X13_normalized_only_forwarded lcg_random recording_backend
                         G5 (KInt 2) true false None false None (Some 1) float64
                         world0 eq_refl))).
Defined.

